(** * A shallow embedding of the ETL pipeline of python-logging-mastery

    Sources: [etl/extractor.py], [etl/transformer.py], [etl/loader.py] and
    [main.py].  Python dictionaries are association lists (insertion order
    is observable in Python), exceptions are the constructors of [exn] and
    are threaded through the small error monad [res].  Floating point
    arithmetic, [float()] parsing and [datetime.strptime] belong to the
    Python runtime, not to this repository; they are the operations of the
    class [Runtime], so every statement below holds for any implementation
    of them (IEEE doubles included).  Logging calls only format messages;
    the arguments they evaluate eagerly are modelled where they can raise. *)

From Stdlib Require Import String Ascii List ZArith Bool Lia.
Import ListNotations.
Open Scope string_scope.
Open Scope list_scope.
Open Scope Z_scope.
#[local] Set Warnings "-register-all".

(** ** Exceptions and the error monad *)

Inductive exn :=
| KeyError
| TypeError
| ValueError
| OverflowError
| RuntimeError
| AttributeError
| ProgrammingError
| OSError
| UnicodeDecodeError.

Inductive res (A : Type) :=
| Ok (a : A)
| Err (e : exn).
Arguments Ok {A} a.
Arguments Err {A} e.

Definition bind {A B} (c : res A) (k : A -> res B) : res B :=
  match c with
  | Ok a => k a
  | Err e => Err e
  end.

Notation "a +++ b" := (String.append a b) (at level 60, right associativity).

Notation "'let*' x ':=' c 'in' k" := (bind c (fun x => k))
  (at level 200, x name, c at level 100, k at level 200).

(** [except (ValueError, TypeError)]: the handler runs for these two
    exceptions and their subclasses ([UnicodeDecodeError] is a
    [ValueError]) only, every other exception propagates. *)
Definition is_value_or_type_error (e : exn) : bool :=
  match e with
  | ValueError | TypeError | UnicodeDecodeError => true
  | _ => false
  end.

Definition try_vt {A B} (body : res A) (k : A -> res B) (handler : res B) : res B :=
  match body with
  | Ok a => k a
  | Err e => if is_value_or_type_error e then handler else Err e
  end.

(** ** The Python runtime: floats and [datetime.strptime] *)

Class Runtime := {
  float : Type;
  (** [float(s)] on a string; [None] is a [ValueError] *)
  float_of_str : string -> option float;
  (** [float(n)] on an int; [None] is an [OverflowError] *)
  float_of_int : Z -> option float;
  (** [int(f)] on a float: [ValueError] for nan, [OverflowError] for inf *)
  int_of_float : float -> res Z;
  fmul : float -> float -> float;
  (** [round(x, 2)] *)
  fround2 : float -> float;
  fltb : float -> float -> bool;
  feqb : float -> float -> bool;
  (** the value of a float literal such as [0.0] or [500.00] *)
  flit : string -> float;
  (** [repr(f)] *)
  frepr : float -> string;
  (** [datetime.strptime(s, fmt).strftime("%Y-%m-%d")] for the date string
      [s] and the format [fmt]; [None] is the
      [ValueError] of a string that does not match [fmt] *)
  strptime_ymd : string -> string -> option string;
  (** [f == n] for a float and an int (exact comparison) *)
  float_eq_int : float -> Z -> bool;
  feqb_zero : feqb (flit "0.0") (flit "0.0") = true;
  fltb_zero : forall x, feqb x (flit "0.0") = true -> fltb x (flit "0.0") = false
}.

Section Pipeline.
Context {R : Runtime}.

Definition fzero : float := flit "0.0".
Definition f500 : float := flit "500.00".

(** ** Python values *)

Inductive pyval :=
| VNone
| VBool (b : bool)
| VInt (z : Z)
| VFloat (f : float)
| VStr (s : string)
| VList (l : list pyval)
| VDict (d : list (string * pyval)).

(** A dict with string keys, in insertion order. *)
Definition dict := list (string * pyval).

Fixpoint dict_get (k : string) (d : dict) : option pyval :=
  match d with
  | [] => None
  | (k', v) :: d' => if String.eqb k k' then Some v else dict_get k d'
  end.

(** [d[k] = v]: an existing key keeps its position, a new one is appended. *)
Fixpoint dict_set (k : string) (v : pyval) (d : dict) : dict :=
  match d with
  | [] => [(k, v)]
  | (k', v') :: d' =>
      if String.eqb k k' then (k', v) :: d' else (k', v') :: dict_set k v d'
  end.

(** [d[k]] *)
Definition getitem (k : string) (d : dict) : res pyval :=
  match dict_get k d with
  | Some v => Ok v
  | None => Err KeyError
  end.

(** [bool(v)] *)
Definition truthy (v : pyval) : bool :=
  match v with
  | VNone => false
  | VBool b => b
  | VInt z => negb (Z.eqb z 0)
  | VFloat f => negb (feqb f fzero)
  | VStr s => negb (String.eqb s "")
  | VList l => negb (Nat.eqb (length l) 0)
  | VDict d => negb (Nat.eqb (length d) 0)
  end.

(** [bool(d.get(k))] *)
Definition get_truthy (k : string) (d : dict) : bool :=
  match dict_get k d with
  | Some v => truthy v
  | None => false
  end.

(** ** [int(s)] on a string: surrounding whitespace, an optional sign and
    decimal digits with single underscores between them (ASCII digits). *)

Definition is_space (c : ascii) : bool :=
  let n := nat_of_ascii c in
  orb (Nat.eqb n 32) (orb (andb (Nat.leb 9 n) (Nat.leb n 13))
                          (andb (Nat.leb 28 n) (Nat.leb n 31))).

Definition digit_val (c : ascii) : option Z :=
  let n := nat_of_ascii c in
  if andb (Nat.leb 48 n) (Nat.leb n 57) then Some (Z.of_nat (n - 48)) else None.

Fixpoint strip_left (l : list ascii) : list ascii :=
  match l with
  | c :: l' => if is_space c then strip_left l' else l
  | [] => []
  end.

Definition strip (l : list ascii) : list ascii :=
  rev (strip_left (rev (strip_left l))).

Fixpoint digits_tail (l : list ascii) (acc : Z) : option Z :=
  match l with
  | [] => Some acc
  | c :: l' =>
      match digit_val c with
      | Some d => digits_tail l' (acc * 10 + d)
      | None =>
          if Ascii.eqb c "_" then
            match l' with
            | c' :: l'' =>
                match digit_val c' with
                | Some d => digits_tail l'' (acc * 10 + d)
                | None => None
                end
            | [] => None
            end
          else None
      end
  end.

Definition digits (l : list ascii) : option Z :=
  match l with
  | c :: l' =>
      match digit_val c with
      | Some d => digits_tail l' d
      | None => None
      end
  | [] => None
  end.

Definition parse_int (s : string) : option Z :=
  match strip (list_ascii_of_string s) with
  | c :: l =>
      if Ascii.eqb c "-" then option_map Z.opp (digits l)
      else if Ascii.eqb c "+" then digits l
      else digits (c :: l)
  | [] => None
  end.

(** [int(v)] *)
Definition py_int (v : pyval) : res Z :=
  match v with
  | VInt z => Ok z
  | VBool b => Ok (if b then 1 else 0)
  | VFloat f => int_of_float f
  | VStr s => match parse_int s with Some z => Ok z | None => Err ValueError end
  | VNone | VList _ | VDict _ => Err TypeError
  end.

(** [float(v)] *)
Definition py_float (v : pyval) : res float :=
  match v with
  | VFloat f => Ok f
  | VInt z => match float_of_int z with Some f => Ok f | None => Err OverflowError end
  | VBool b =>
      match float_of_int (if b then 1 else 0) with
      | Some f => Ok f
      | None => Err OverflowError
      end
  | VStr s => match float_of_str s with Some f => Ok f | None => Err ValueError end
  | VNone | VList _ | VDict _ => Err TypeError
  end.

(** [v * w] on numbers, as [cleaned["quantity"] * cleaned["unit_price"]]
    uses it; an int operand is converted to float when the other one is a
    float. *)
Definition py_mul (v w : pyval) : res pyval :=
  match v, w with
  | VInt a, VInt b => Ok (VInt (a * b))
  | VInt a, VFloat g | VFloat g, VInt a =>
      match float_of_int a with
      | Some f => Ok (VFloat (fmul f g))
      | None => Err OverflowError
      end
  | VFloat f, VFloat g => Ok (VFloat (fmul f g))
  | _, _ => Err TypeError
  end.

(** [round(v, 2)] *)
Definition py_round2 (v : pyval) : res pyval :=
  match v with
  | VFloat f => Ok (VFloat (fround2 f))
  | VInt z => Ok (VInt z)
  | _ => Err TypeError
  end.

(** ** [validate_row] (etl/transformer.py) *)

Definition date_formats : list string :=
  ["%Y-%m-%d"; "%d/%m/%Y"; "%m-%d-%Y"; "%b %d %Y"].

(** [datetime.strptime(row["order_date"], fmt)] *)
Definition strptime_field (row : dict) (fmt : string) : res string :=
  let* v := getitem "order_date" row in
  match v with
  | VStr s =>
      match strptime_ymd s fmt with
      | Some out => Ok out
      | None => Err ValueError
      end
  | _ => Err TypeError
  end.

(** The loop over [date_formats]: [break] on the first format that parses,
    [continue] on [ValueError] or [TypeError]; [None] is [parsed_date is None]. *)
Fixpoint parse_date (fmts : list string) (row : dict) : res (option string) :=
  match fmts with
  | [] => Ok None
  | fmt :: fmts' =>
      try_vt (strptime_field row fmt) (fun out => Ok (Some out)) (parse_date fmts' row)
  end.

Definition validate_result := (bool * option dict * list string)%type.

Definition validate_row (row : dict) (row_num : Z) : res validate_result :=
  let cleaned := row in
  if negb (get_truthy "order_id" row) then Ok (false, None, ["missing_order_id"]) else
  if negb (get_truthy "product_id" row) then Ok (false, None, ["missing_product_id"]) else
  let '(cleaned, issues) :=
    if negb (get_truthy "email" row)
    then (dict_set "email" (VStr "unknown@placeholder.com") cleaned, ["missing_email"])
    else (cleaned, []) in
  (* --- Validate quantity --- *)
  try_vt (let* v := getitem "quantity" row in py_int v)
    (fun quantity =>
       let '(quantity, issues) :=
         if quantity <=? 0 then (1, issues ++ ["invalid_quantity"]) else (quantity, issues) in
       let cleaned := dict_set "quantity" (VInt quantity) cleaned in
       (* --- Validate unit_price --- *)
       try_vt (if get_truthy "unit_price" row
               then let* v := getitem "unit_price" row in py_float v
               else Ok fzero)
         (fun price =>
            let '(price, issues) :=
              if fltb price fzero then (fzero, issues ++ ["negative_price"])
              else if feqb price fzero then (price, issues ++ ["zero_price"])
              else (price, issues) in
            let cleaned := dict_set "unit_price" (VFloat price) cleaned in
            (* --- Validate order_date --- *)
            let* parsed_date := parse_date date_formats row in
            match parsed_date with
            | None => Ok (false, None, ["unparseable_date"])
            | Some out =>
                let cleaned := dict_set "order_date" (VStr out) cleaned in
                (* --- Calculate total --- *)
                let* q := getitem "quantity" cleaned in
                let* p := getitem "unit_price" cleaned in
                let* prod := py_mul q p in
                let* total := py_round2 prod in
                Ok (true, Some (dict_set "total" total cleaned), issues)
            end)
         (Ok (false, None, ["invalid_price_type"])))
    (Ok (false, None, ["invalid_quantity_type"])).

(** ** [check_duplicates] *)

(** Python [==] on the hashable values used as dict keys or set elements. *)
Definition py_eqb (v w : pyval) : bool :=
  match v, w with
  | VNone, VNone => true
  | VStr a, VStr b => String.eqb a b
  | VBool a, VBool b => Bool.eqb a b
  | VInt a, VInt b => Z.eqb a b
  | VBool a, VInt b | VInt b, VBool a => Z.eqb (if a then 1 else 0) b
  | VFloat f, VFloat g => feqb f g
  | VFloat f, VInt a | VInt a, VFloat f => float_eq_int f a
  | VFloat f, VBool a | VBool a, VFloat f => float_eq_int f (if a then 1 else 0)
  | _, _ => false
  end.

Definition hashable (v : pyval) : bool :=
  match v with
  | VList _ | VDict _ => false
  | _ => true
  end.

(** [k in d] for a dict or set [d] whose keys are listed; an unhashable
    [k] raises [TypeError]. *)
Definition py_contains (k : pyval) (keys : list pyval) : res bool :=
  if hashable k then Ok (existsb (py_eqb k) keys) else Err TypeError.

(** The loop of [check_duplicates]: [seen] maps an order id to its
    position in [unique_rows]; the result is the final
    [(unique_rows, duplicate_count)]. *)
Fixpoint dedup_loop (rows : list dict) (seen : list (pyval * nat))
    (unique_rows : list dict) (duplicate_count : nat) : res (list dict * nat) :=
  match rows with
  | [] => Ok (unique_rows, duplicate_count)
  | row :: rows' =>
      let* order_id := getitem "order_id" row in
      let* found := py_contains order_id (map fst seen) in
      if found then dedup_loop rows' seen unique_rows (S duplicate_count)
      else dedup_loop rows' (seen ++ [(order_id, length unique_rows)])
             (unique_rows ++ [row]) duplicate_count
  end.

Definition check_duplicates (rows : list dict) : res (list dict) :=
  let* r := dedup_loop rows [] [] 0 in
  Ok (fst r).

(** ** [detect_anomalies] *)

(** [v > c] for a float constant [c] *)
Definition py_gt_float (v : pyval) (c : float) : res bool :=
  match v with
  | VFloat f => Ok (fltb c f)
  | VInt z =>
      match float_of_int z with
      | Some f => Ok (fltb c f)
      | None => Ok (0 <? z)
      end
  | VBool b =>
      match float_of_int (if b then 1 else 0) with
      | Some f => Ok (fltb c f)
      | None => Ok false
      end
  | _ => Err TypeError
  end.

(** [v > n] and [v < n] for an int constant [n] *)
Definition py_cmp_int (lt : bool) (v : pyval) (n : Z) : res bool :=
  let cmp a b := if lt then a <? b else b <? a in
  match v with
  | VInt z => Ok (cmp z n)
  | VBool b => Ok (cmp (if b then 1 else 0) n)
  | VFloat f =>
      match float_of_int n with
      | Some g => Ok (if lt then fltb f g else fltb g f)
      | None => Err OverflowError
      end
  | _ => Err TypeError
  end.

Definition HIGH_QUANTITY_THRESHOLD : Z := 20.
Definition LOW_STOCK_THRESHOLD : Z := 10.

Definition get_default (k : string) (d : dict) (dflt : pyval) : pyval :=
  match dict_get k d with Some v => v | None => dflt end.

(** [HIGH_VALUE_ORDER_THRESHOLD] is the literal [500.00], [f500]. *)
Definition detect_anomalies (row : dict) (row_num : Z) : res (list string) :=
  let total := get_default "total" row (VInt 0) in
  let* hv := py_gt_float total f500 in
  let* alerts :=
    if hv then let* _ := getitem "order_id" row in Ok ["high_value"] else Ok [] in
  let quantity := get_default "quantity" row (VInt 0) in
  let* hq := py_cmp_int false quantity HIGH_QUANTITY_THRESHOLD in
  if hq then let* _ := getitem "order_id" row in Ok (alerts ++ ["high_quantity"])
  else Ok alerts.

(** ** [enrich_with_products] *)

(** [v[k]] for a string key [k] on any value: only a dict can be indexed
    by a string. *)
Definition subscript (v : pyval) (k : string) : res pyval :=
  match v with
  | VDict d => getitem k d
  | _ => Err TypeError
  end.

(** A dict keyed by Python values, in insertion order: [d[k] = v] keeps the
    first equal key in place. *)
Fixpoint lookup_set (k : pyval) (v : pyval) (d : list (pyval * pyval)) : list (pyval * pyval) :=
  match d with
  | [] => [(k, v)]
  | (k', v') :: d' =>
      if py_eqb k k' then (k', v) :: d' else (k', v') :: lookup_set k v d'
  end.

Fixpoint lookup_find (k : pyval) (d : list (pyval * pyval)) : option pyval :=
  match d with
  | [] => None
  | (k', v) :: d' => if py_eqb k k' then Some v else lookup_find k d'
  end.

(** [{p["product_id"]: p for p in product_catalog}] *)
Fixpoint build_lookup (catalog : list pyval) (acc : list (pyval * pyval))
    : res (list (pyval * pyval)) :=
  match catalog with
  | [] => Ok acc
  | p :: catalog' =>
      let* k := subscript p "product_id" in
      if hashable k then build_lookup catalog' (lookup_set k p acc) else Err TypeError
  end.

(** [product_lookup.get(k)] *)
Definition lookup_get (k : pyval) (d : list (pyval * pyval)) : res (option pyval) :=
  if hashable k then Ok (lookup_find k d) else Err TypeError.

(** [s.add(k)] on a set of hashable values *)
Definition set_add (k : pyval) (s : list pyval) : list pyval :=
  if existsb (py_eqb k) s then s else s ++ [k].

(** The [else] branch for a product id absent from the catalog. *)
Definition mark_unknown (pid : pyval) (row : dict) (missing_products : list pyval)
    : dict * list pyval :=
  (dict_set "current_stock" (VInt (-1))
     (dict_set "category" (VStr "UNKNOWN")
        (dict_set "product_name" (VStr "UNKNOWN") row)),
   set_add pid missing_products).

(** One iteration of the loop of [enrich_with_products]. *)
Definition enrich_row (product_lookup : list (pyval * pyval)) (row : dict)
    (missing_products : list pyval) : res (dict * list pyval) :=
  let* pid := getitem "product_id" row in
  let* product := lookup_get pid product_lookup in
  match product with
  | Some product =>
      if truthy product then
        let* name := subscript product "name" in
        let row := dict_set "product_name" name row in
        let* category := subscript product "category" in
        let row := dict_set "category" category row in
        let* stock := subscript product "stock" in
        let row := dict_set "current_stock" stock row in
        let* _ := getitem "order_id" row in
        let* low := py_cmp_int true stock LOW_STOCK_THRESHOLD in
        let* _ := if low then subscript product "product_id" else Ok VNone in
        Ok (row, missing_products)
      else Ok (mark_unknown pid row missing_products)
  | None => Ok (mark_unknown pid row missing_products)
  end.

Fixpoint enrich_loop (product_lookup : list (pyval * pyval)) (rows : list dict)
    (enriched : list dict) (missing_products : list pyval) : res (list dict * list pyval) :=
  match rows with
  | [] => Ok (enriched, missing_products)
  | row :: rows' =>
      let* r := enrich_row product_lookup row missing_products in
      enrich_loop product_lookup rows' (enriched ++ [fst r]) (snd r)
  end.

Definition is_str (v : pyval) : bool := match v with VStr _ => true | _ => false end.
Definition is_num (v : pyval) : bool :=
  match v with VInt _ | VFloat _ | VBool _ => true | _ => false end.

(** [sorted(s)] raises [TypeError] on two or more elements that are neither
    all strings nor all numbers (a sort compares every element). *)
Definition py_sorted_ok (s : list pyval) : res unit :=
  match s with
  | [] | [_] => Ok tt
  | _ => if orb (forallb is_str s) (forallb is_num s) then Ok tt else Err TypeError
  end.

(** The loop's final [(enriched, missing_products)], with the warning that
    sorts [missing_products]. *)
Definition enrich_run (rows : list dict) (product_catalog : list pyval)
    : res (list dict * list pyval) :=
  let* product_lookup := build_lookup product_catalog [] in
  let* r := enrich_loop product_lookup rows [] [] in
  let* _ := py_sorted_ok (snd r) in
  Ok r.

Definition enrich_with_products (rows : list dict) (product_catalog : list pyval)
    : res (list dict) :=
  let* r := enrich_run rows product_catalog in
  Ok (fst r).

(** ** [run_transformation] *)

(** [len(v)] (a string counts its ASCII characters) *)
Definition py_len (v : pyval) : res nat :=
  match v with
  | VList l => Ok (length l)
  | VDict d => Ok (length d)
  | VStr s => Ok (String.length s)
  | _ => Err TypeError
  end.

(** The elements [for p in v] visits: a dict yields its keys, a string its
    characters. *)
Definition py_iter (v : pyval) : res (list pyval) :=
  match v with
  | VList l => Ok l
  | VDict d => Ok (map (fun kv => VStr (fst kv)) d)
  | VStr s => Ok (map (fun c => VStr (String c EmptyString)) (list_ascii_of_string s))
  | _ => Err TypeError
  end.

(** What [run_extraction] returns: the values under ["sales_data"],
    ["product_catalog"] and ["api_data"]; the catalog is whatever the JSON
    document held under its key. *)
Record results := mkResults {
  sales_data : list dict;
  product_catalog : pyval;
  api_data : list dict
}.

(** Step 1 of [run_transformation]: the final [(valid_rows, skipped_rows)]
    (the issue histogram only feeds a log message). *)
Fixpoint validate_all (rows : list dict) (i : Z) (valid_rows : list dict)
    (skipped_rows : nat) : res (list dict * nat) :=
  match rows with
  | [] => Ok (valid_rows, skipped_rows)
  | row :: rows' =>
      let* r := validate_row row i in
      match r with
      | (true, Some cleaned, _) => validate_all rows' (i + 1) (valid_rows ++ [cleaned]) skipped_rows
      | (true, None, _) => validate_all rows' (i + 1) valid_rows skipped_rows
      | (false, _, _) => validate_all rows' (i + 1) valid_rows (S skipped_rows)
      end
  end.

(** Step 3: [row["anomaly_flags"] = alerts] on every row, counting the rows
    with alerts. *)
Fixpoint anomaly_all (rows : list dict) (i : Z) (acc : list dict) (anomaly_count : nat)
    : res (list dict * nat) :=
  match rows with
  | [] => Ok (acc, anomaly_count)
  | row :: rows' =>
      let* alerts := detect_anomalies row i in
      let row := dict_set "anomaly_flags" (VList (map VStr alerts)) row in
      anomaly_all rows' (i + 1) (acc ++ [row])
        (match alerts with [] => anomaly_count | _ => S anomaly_count end)
  end.

Definition run_transformation (extracted_data : results) : res (list dict) :=
  let raw_rows := sales_data extracted_data in
  let* _ := py_len (product_catalog extracted_data) in
  let* r := validate_all raw_rows 1 [] 0 in
  let* valid_rows := check_duplicates (fst r) in
  let* r := anomaly_all valid_rows 1 [] 0 in
  let* catalog := py_iter (product_catalog extracted_data) in
  enrich_with_products (fst r) catalog.

(** ** Extraction (etl/extractor.py) *)

(** The CSV file at [csv_path]: absent, present but failing with [e] when
    it is opened or read ([OSError] for a directory or a file without read
    permission, [UnicodeDecodeError] for bytes that are not UTF-8), or the
    dicts [csv.DictReader] yields. *)
Inductive csv_file :=
| CsvMissing
| CsvUnreadable (e : exn)
| CsvRows (rows : list dict).

(** The JSON file at [json_path]: absent, present but failing with [e] when
    it is opened or its text is read (as for [csv_file]), UTF-8 text that
    [json.load] rejects with [json.JSONDecodeError], or a document. *)
Inductive json_file :=
| JsonMissing
| JsonUnreadable (e : exn)
| JsonInvalid
| JsonDoc (data : pyval).

(** No handler: an error of [open] or of the read propagates. *)
Definition extract_csv (f : csv_file) : res (list dict) :=
  match f with
  | CsvMissing => Ok []
  | CsvUnreadable e => Err e
  | CsvRows rows => Ok rows
  end.

Fixpoint is_prefix (p s : list ascii) : bool :=
  match p, s with
  | [], _ => true
  | a :: p', b :: s' => Ascii.eqb a b && is_prefix p' s'
  | _ :: _, [] => false
  end.

Fixpoint is_infix (p s : list ascii) : bool :=
  is_prefix p s || match s with [] => false | _ :: s' => is_infix p s' end.

(** [key in data] *)
Definition py_in_str (key : string) (data : pyval) : res bool :=
  match data with
  | VDict d => Ok (existsb (fun kv => String.eqb key (fst kv)) d)
  | VList l => Ok (existsb (py_eqb (VStr key)) l)
  | VStr s => Ok (is_infix (list_ascii_of_string key) (list_ascii_of_string s))
  | _ => Err TypeError
  end.

(** [list(data.keys())] *)
Definition py_keys (data : pyval) : res (list string) :=
  match data with
  | VDict d => Ok (map fst d)
  | _ => Err AttributeError
  end.

(** [v[0]] *)
Definition py_index0 (v : pyval) : res pyval :=
  match v with
  | VList (x :: _) => Ok x
  | VStr (String c _) => Ok (VStr (String c EmptyString))
  | VDict _ => Err KeyError
  | _ => Err TypeError
  end.

(** [data[key]] for a string [key] *)
Definition py_getitem_str (data : pyval) (key : string) : res pyval :=
  match data with
  | VDict d => getitem key d
  | _ => Err TypeError
  end.

Definition extract_json (f : json_file) (key : string) : res pyval :=
  match f with
  | JsonMissing => Ok (VList [])
  | JsonUnreadable e => Err e
  | JsonInvalid => Ok (VList [])
  | JsonDoc data =>
      let* present := py_in_str key data in
      if negb present then
        let* _ := py_keys data in Ok (VList [])
      else
        let* records := py_getitem_str data key in
        let* _ := py_len records in
        let* _ := if truthy records then py_index0 records else Ok (VStr "N/A") in
        Ok records
  end.

(** The two records of a 200 answer. *)
Definition api_records : list dict :=
  [[("source", VStr "api"); ("order_id", VStr "API-001"); ("amount", VFloat (flit "150.00"))];
   [("source", VStr "api"); ("order_id", VStr "API-002"); ("amount", VFloat (flit "75.50"))]].

(** [draw n] is the status [random.choice] returns on attempt [n]. *)
Fixpoint api_attempts (draw : nat -> Z) (attempt remaining : nat) : list dict :=
  match remaining with
  | O => []
  | S remaining' =>
      if Z.eqb (draw attempt) 200 then api_records
      else api_attempts draw (S attempt) remaining'
  end.

Definition extract_from_api (draw : nat -> Z) (max_retries : nat) : list dict :=
  api_attempts draw 1 max_retries.

Definition run_extraction (csv : csv_file) (json : json_file) (draw : nat -> Z)
    : res results :=
  let* sales := extract_csv csv in
  let* catalog := extract_json json "products" in
  let api := extract_from_api draw 3 in
  match sales with
  | [] => Err RuntimeError
  | _ => Ok (mkResults sales catalog api)
  end.

(** ** Loading (etl/loader.py) *)

Fixpoint digits_to_string (fuel : nat) (n : Z) (acc : string) : string :=
  match fuel with
  | O => acc
  | S fuel' =>
      let d := String (ascii_of_nat (48 + Z.to_nat (n mod 10))) EmptyString in
      if n <? 10 then d +++ acc else digits_to_string fuel' (n / 10) (d +++ acc)
  end.

(** [str(n)] for an int *)
Definition z_to_string (z : Z) : string :=
  let fuel := S (Z.to_nat (Z.log2_up (Z.abs z + 1))) in
  if z <? 0 then "-" +++ digits_to_string fuel (- z) "" else digits_to_string fuel z "".

Fixpoint join_comma (l : list string) : string :=
  match l with
  | [] => ""
  | [x] => x
  | x :: l' => x +++ ", " +++ join_comma l'
  end.

(** [repr(v)] (strings are quoted with single quotes, escapes omitted) *)
Fixpoint py_repr (v : pyval) : string :=
  match v with
  | VNone => "None"
  | VBool b => if b then "True" else "False"
  | VInt z => z_to_string z
  | VFloat f => frepr f
  | VStr s => "'" +++ s +++ "'"
  | VList l => "[" +++ join_comma (map py_repr l) +++ "]"
  | VDict d => "{" +++ join_comma (map (fun kv => "'" +++ fst kv +++ "': " +++ py_repr (snd kv)) d) +++ "}"
  end.

(** [str(v)] *)
Definition py_str (v : pyval) : string :=
  match v with
  | VStr s => s
  | _ => py_repr v
  end.

(** The table [clean_sales]: one list of the 13 column values per stored
    row, [order_id] first. *)
Definition table := list (list pyval).

(** Binding a parameter: [sqlite3] stores None, ints of 64 bits, floats
    and strings; a list or a dict is refused. *)
Definition sql_bind (v : pyval) : res unit :=
  match v with
  | VInt z => if andb (- 2 ^ 63 <=? z) (z <? 2 ^ 63) then Ok tt else Err OverflowError
  | VList _ | VDict _ => Err ProgrammingError
  | _ => Ok tt
  end.

Fixpoint sql_bind_all (ps : list pyval) : res unit :=
  match ps with
  | [] => Ok tt
  | p :: ps' => let* _ := sql_bind p in sql_bind_all ps'
  end.

(** [INSERT OR IGNORE]: a row whose [order_id] equals a stored one is not
    inserted ([cursor.rowcount] is 0); a NULL key never conflicts.  The
    table has no other constraint, so [sqlite3.IntegrityError] cannot
    arise.  A stored row is the parameter tuple as bound: the conversions
    of SQLite's column affinities are not modelled, and keys are compared
    as Python values, which is SQLite's comparison of [TEXT] keys when the
    keys are strings. *)
Definition insert_or_ignore (params : list pyval) (t : table) : table * bool :=
  match params with
  | VNone :: _ => (t ++ [params], true)
  | key :: _ =>
      if existsb (fun r => match r with k :: _ => py_eqb key k | [] => false end) t
      then (t, false) else (t ++ [params], true)
  | [] => (t ++ [params], true)
  end.

(** The parameter tuple of [load_batch], evaluated left to right. *)
Definition row_params (row : dict) : res (list pyval) :=
  let* order_id := getitem "order_id" row in
  let* customer_name := getitem "customer_name" row in
  let* email := getitem "email" row in
  let* product_id := getitem "product_id" row in
  let product_name := get_default "product_name" row (VStr "UNKNOWN") in
  let category := get_default "category" row (VStr "UNKNOWN") in
  let* quantity := getitem "quantity" row in
  let* unit_price := getitem "unit_price" row in
  let* total := getitem "total" row in
  let* order_date := getitem "order_date" row in
  let* payment_method := getitem "payment_method" row in
  let current_stock := get_default "current_stock" row (VInt (-1)) in
  let anomaly_flags := VStr (py_str (get_default "anomaly_flags" row (VList []))) in
  Ok [order_id; customer_name; email; product_id; product_name; category;
      quantity; unit_price; total; order_date; payment_method; current_stock;
      anomaly_flags].

(** The loop of [load_batch] on the uncommitted table: the final
    [(inserted, skipped)] and table. *)
Fixpoint load_rows (batch : list dict) (t : table) (inserted skipped : nat)
    : res (nat * nat * table) :=
  match batch with
  | [] => Ok (inserted, skipped, t)
  | row :: batch' =>
      let* params := row_params row in
      let* _ := sql_bind_all params in
      let '(t', added) := insert_or_ignore params t in
      if added then load_rows batch' t' (S inserted) skipped
      else load_rows batch' t' inserted (S skipped)
  end.

Definition load_batch (batch : list dict) (t : table) : res (nat * nat * table) :=
  load_rows batch t 0 0.

(** [draw] is [random.random() < 0.3], drawn only when the condition's
    first operand holds. *)
Definition simulate_connection_issue (batch_num total_batches : nat) (draw : bool) : bool :=
  Nat.eqb batch_num total_batches && draw.

Definition BATCH_SIZE : nat := 10.

(** [range(0, n, step)] *)
Definition py_range_step (n step : nat) : list nat :=
  map (fun j => (j * step)%nat) (seq 0 ((n + step - 1) / step)).

(** [[rows[i:i + BATCH_SIZE] for i in range(0, len(rows), BATCH_SIZE)]] *)
Definition make_batches (rows : list dict) : list (list dict) :=
  map (fun i => firstn BATCH_SIZE (skipn i rows)) (py_range_step (length rows) BATCH_SIZE).

(** The connection: the committed table and the table as the open
    transaction sees it. *)
Record conn := mkConn {
  committed : table;
  working : table
}.

Definition commit (c : conn) : conn := mkConn (working c) (working c).
Definition rollback (c : conn) : conn := mkConn (committed c) (committed c).

(** The log lines of the loading loop that name a batch. *)
Inductive load_event :=
| Processing (batch_num : nat)
| ConnectionLost (batch_num : nat)
| Committed (batch_num : nat).

Fixpoint load_loop (batches : list (list dict)) (batch_num total_batches : nat)
    (draw : bool) (c : conn) (total_inserted total_skipped : nat)
    (log : list load_event) : res (nat * nat) * conn * list load_event :=
  match batches with
  | [] => (Ok (total_inserted, total_skipped), c, log)
  | batch :: batches' =>
      let log := log ++ [Processing batch_num] in
      if simulate_connection_issue batch_num total_batches draw then
        (Ok (total_inserted, total_skipped), rollback c, log ++ [ConnectionLost batch_num])
      else
        match load_batch batch (working c) with
        | Err e => (Err e, c, log)
        | Ok (inserted, skipped, t) =>
            load_loop batches' (S batch_num) total_batches draw (commit (mkConn (committed c) t))
              (total_inserted + inserted) (total_skipped + skipped)
              (log ++ [Committed batch_num])
        end
  end.

(** [run_loading] on the rows and the table already in the database file:
    its result (or exception), the durable table, and the log.  A
    transaction left open by an exception is dropped with the
    connection. *)
Definition run_loading (cleaned_rows : list dict) (draw : bool) (db : table)
    : res (nat * nat) * table * list load_event :=
  let batches := make_batches cleaned_rows in
  let total_batches := length batches in
  let '(r, c, log) := load_loop batches 1 total_batches draw (mkConn db db) 0 0 [] in
  (r, committed c, log).

(** ** The orchestrator (main.py) *)

Record stats := mkStats {
  extracted : nat;
  transformed : nat;
  loaded : nat;
  skipped : nat;
  errors : nat;
  phase_failed : option string
}.

(** The inputs of one run: the files, the random draws and the database. *)
Record env := mkEnv {
  csv_source : csv_file;
  json_source : json_file;
  api_draw : nat -> Z;
  load_draw : bool;
  db_initial : table
}.

(** The stages in the order their "... PHASE STARTED" lines are logged. *)
Inductive stage := Extraction | Transformation | Loading.

Definition stats0 : stats := mkStats 0 0 0 0 0 None.

(** The [except Exception] handler of a stage. *)
Definition fail_stage (st : stats) (name : string) : stats :=
  mkStats (extracted st) (transformed st) (loaded st) (skipped st) (S (errors st)) (Some name).

Definition run_pipeline (e : env) : stats * list stage :=
  let st := stats0 in
  match run_extraction (csv_source e) (json_source e) (api_draw e) with
  | Err _ => (fail_stage st "extraction", [Extraction])
  | Ok extracted_data =>
      let st := mkStats (length (sales_data extracted_data)) 0 0 0 0 None in
      match run_transformation extracted_data with
      | Err _ => (fail_stage st "transformation", [Extraction; Transformation])
      | Ok cleaned_rows =>
          let st := mkStats (extracted st) (length cleaned_rows) 0 0 0 None in
          match run_loading cleaned_rows (load_draw e) (db_initial e) with
          | (Err _, _, _) => (fail_stage st "loading", [Extraction; Transformation; Loading])
          | (Ok (inserted, skipped), _, _) =>
              (mkStats (extracted st) (transformed st) inserted skipped 0 None,
               [Extraction; Transformation; Loading])
          end
      end
  end.

End Pipeline.

(** ** A runtime for evaluating the model on concrete rows

    Floats are integers here and the only date format understood is a
    ten-character [%Y-%m-%d] string returned as it is. *)

Definition int_part (s : string) : string :=
  string_of_list_ascii
    ((fix go (l : list ascii) := match l with
      | [] => []
      | c :: l' => if Ascii.eqb c "." then [] else c :: go l'
      end) (list_ascii_of_string s)).

Lemma int_fltb_zero (x : Z) :
  Z.eqb x (match parse_int (int_part "0.0") with Some z => z | None => 0 end) = true ->
  Z.ltb x (match parse_int (int_part "0.0") with Some z => z | None => 0 end) = false.
Proof. intros H. apply Z.eqb_eq in H. rewrite H. apply Z.ltb_irrefl. Qed.

#[export] Instance IntRuntime : Runtime := {
  float := Z;
  float_of_str := parse_int;
  float_of_int := Some;
  int_of_float := Ok;
  fmul := Z.mul;
  fround2 := fun f => f;
  fltb := Z.ltb;
  feqb := Z.eqb;
  flit := fun s => match parse_int (int_part s) with Some z => z | None => 0 end;
  frepr := z_to_string;
  strptime_ymd := fun s fmt =>
    if String.eqb fmt "%Y-%m-%d" && Nat.eqb (String.length s) 10 then Some s else None;
  float_eq_int := Z.eqb;
  feqb_zero := Z.eqb_refl _;
  fltb_zero := int_fltb_zero
}.

Definition sample_row (oid : string) : dict :=
  [("order_id", VStr oid); ("customer_name", VStr "Ann"); ("email", VStr "a@b.c");
   ("product_id", VStr "P1"); ("quantity", VStr "-2"); ("unit_price", VStr "3");
   ("order_date", VStr "2024-01-05"); ("payment_method", VStr "card")].

Definition clean_row (n : nat) : dict :=
  dict_set "total" (VFloat 3) (sample_row (z_to_string (Z.of_nat n))).

(** [sample_row "O1"] as [validate_row] accepts it. *)
Definition accepted_row : dict :=
  [("order_id", VStr "O1"); ("customer_name", VStr "Ann"); ("email", VStr "a@b.c");
   ("product_id", VStr "P1"); ("quantity", VInt 1); ("unit_price", VFloat 3);
   ("order_date", VStr "2024-01-05"); ("payment_method", VStr "card");
   ("total", VFloat 3)].

Definition bad_quantity_row : dict := dict_set "quantity" (VStr "x") (sample_row "O1").
Definition empty_price_row : dict := dict_set "unit_price" (VStr "") (sample_row "O1").
Definition bad_price_row : dict := dict_set "unit_price" (VStr "abc") (sample_row "O1").

(** A CSV row of a file without the [quantity] column. *)
Definition no_quantity_row : dict :=
  [("order_id", VStr "O1"); ("customer_name", VStr "Ann"); ("product_id", VStr "P1")].

Definition no_quantity_env : env :=
  mkEnv (CsvRows [no_quantity_row]) JsonMissing (fun _ => 500) false [].

Definition dup_rows : list dict := [sample_row "A"; sample_row "B"; sample_row "A"].

Definition pen_catalog : list pyval :=
  [VDict [("product_id", VStr "P1"); ("name", VStr "Pen"); ("category", VStr "Office");
          ("stock", VInt 5)]].

Definition enrich_rows : list dict :=
  [sample_row "O1"; dict_set "product_id" (VStr "P9") (sample_row "O2")].

(** 23 clean rows: three batches, the last one of 3 rows. *)
Definition loader_rows : list dict := map clean_row (seq 0 23).

Definition no_email_row : dict := dict_set "email" (VStr "") (sample_row "O1").
Definition no_date_row : dict :=
  [("order_id", VStr "O1"); ("product_id", VStr "P1"); ("quantity", VStr "2");
   ("unit_price", VStr "3")].
Definition mixed_rows : list dict := [sample_row "O1"; bad_quantity_row; no_email_row].
Definition big_row : dict := dict_set "total" (VFloat 600) (dict_set "quantity" (VInt 25) accepted_row).
Definition catalog_env : env :=
  mkEnv (CsvRows dup_rows) (JsonDoc (VDict [("products", VList pen_catalog)]))
    (fun _ => 200) false [].

(** * Statements about the model *)

Section Statements.
Context {R : Runtime}.

(** [validate_row] reaches its unit_price check with the int [q] parsed
    from the quantity. *)
Definition reaches_price_check (row : dict) (q : Z) : Prop :=
  get_truthy "order_id" row = true /\ get_truthy "product_id" row = true /\
  exists v, dict_get "quantity" row = Some v /\ py_int v = Ok q.

(** The price step is not fatal and stores the price [p] with the issue
    [issue]: the row is not dropped as [invalid_price_type]; accepted, it
    holds [p] with [issue] recorded; and it is accepted whenever its date
    parses and the product [quantity * unit_price] can be formed. *)
Definition price_not_fatal (row : dict) (n q : Z) (p : float) (issue : string) : Prop :=
  validate_row row n <> Ok (false, None, ["invalid_price_type"]) /\
  (forall c iss, validate_row row n = Ok (true, Some c, iss) ->
     dict_get "unit_price" c = Some (VFloat p) /\ In issue iss) /\
  (forall out fq, parse_date date_formats row = Ok (Some out) ->
     float_of_int (if q <=? 0 then 1 else q) = Some fq ->
     exists c iss, validate_row row n = Ok (true, Some c, iss)).

(** ** Deduplication, following the spec's words *)

(** Python [==] on the order ids of two rows whose ids are strings. *)
Definition id_eqb (a b : dict) : bool :=
  match dict_get "order_id" a, dict_get "order_id" b with
  | Some (VStr x), Some (VStr y) => String.eqb x y
  | _, _ => false
  end.

(** The order ids of the pipeline are strings: the CSV reader yields
    strings, and [validate_row] keeps the id it was given. *)
Definition has_str_order_id (r : dict) : Prop :=
  exists s, dict_get "order_id" r = Some (VStr s).

(** Row [i] is the first occurrence of its order id: no earlier row has the
    same id. *)
Definition is_first_occurrence (rows : list dict) (i : nat) : bool :=
  forallb (fun j => negb (id_eqb (nth j rows []) (nth i rows []))) (seq 0 i).

(** The first occurrences, in the order of the input. *)
Definition first_occurrences (rows : list dict) : list dict :=
  map (fun i => nth i rows []) (filter (is_first_occurrence rows) (seq 0 (length rows))).

(** ** Enrichment, following the spec's words *)

(** The catalog entry [p] has product id [s]. *)
Definition entry_has_id (p : pyval) (s : string) : bool :=
  match p with
  | VDict d =>
      match dict_get "product_id" d with
      | Some (VStr s') => String.eqb s' s
      | _ => false
      end
  | _ => false
  end.

(** The catalog entry of product [s]: the last one with that id, or none. *)
Definition catalog_entry (catalog : list pyval) (s : string) : option pyval :=
  fold_left (fun acc p => if entry_has_id p s then Some p else acc) catalog None.

(** How many times [v] occurs in the list [l]. *)
Definition occurrences (v : pyval) (l : list pyval) : nat :=
  length (filter (py_eqb v) l).

(** ** Extraction *)


(** ** Loading *)

(** The log of batches [k], ..., [k + p - 1] processed and committed. *)
Definition committed_log (k p : nat) : list load_event :=
  flat_map (fun j => [Processing j; Committed j]) (seq k p).

(** The order id of a row, [None] when it has none. *)
Definition oid (r : dict) : pyval :=
  match dict_get "order_id" r with Some v => v | None => VNone end.

(** The key column of a stored row. *)
Definition key_of (r : list pyval) : pyval := hd VNone r.

End Statements.

(** * Properties *)

Section Properties.
Context {R : Runtime}.

(** ** Dictionaries *)

Lemma dict_get_set (k k' : string) (v : pyval) (d : dict) :
  dict_get k (dict_set k' v d) = if String.eqb k k' then Some v else dict_get k d.
Proof.
  induction d as [|[k0 v0] d IH]; simpl.
  - reflexivity.
  - destruct (String.eqb k' k0) eqn:E1; simpl.
    + apply String.eqb_eq in E1; subst k0.
      destruct (String.eqb k k'); reflexivity.
    + rewrite IH. destruct (String.eqb k k0) eqn:E2; [|reflexivity].
      apply String.eqb_eq in E2; subst k0.
      destruct (String.eqb k k') eqn:E3; [|reflexivity].
      apply String.eqb_eq in E3; subst k'.
      rewrite String.eqb_refl in E1; discriminate.
Qed.

Lemma dict_get_set_same (k : string) (v : pyval) (d : dict) :
  dict_get k (dict_set k v d) = Some v.
Proof. rewrite dict_get_set, String.eqb_refl; reflexivity. Qed.

Lemma dict_get_set_other (k k' : string) (v : pyval) (d : dict) :
  k <> k' -> dict_get k (dict_set k' v d) = dict_get k d.
Proof.
  intros Hne; rewrite dict_get_set.
  destruct (String.eqb k k') eqn:E; [apply String.eqb_eq in E; contradiction|reflexivity].
Qed.

Lemma dict_get_set_some (k k' : string) (v : pyval) (d : dict) :
  dict_get k d <> None -> dict_get k (dict_set k' v d) <> None.
Proof.
  intros H; rewrite dict_get_set; destruct (String.eqb k k'); [discriminate|exact H].
Qed.

(** Splits every [match] and [if] of a hypothesis [H] obtained by unfolding
    the definitions of the model, discarding the impossible branches. *)
Ltac split_matches H :=
  repeat (match type of H with
          | context [match ?x with _ => _ end] => destruct x eqn:?
          end; simpl in H; try discriminate H).

Ltac unfold_validate H :=
  unfold validate_row, try_vt, bind in H; split_matches H.

Ltac inv_pairs :=
  repeat match goal with
  | Hx : (if ?b then _ else _) = (_, _) |- _ => destruct b eqn:?; simpl in Hx
  | Hx : (_, _) = (_, _) |- _ => injection Hx; clear Hx; intros; subst
  | Hx : Ok _ = Ok _ |- _ => injection Hx; clear Hx; intros; subst
  | Hx : Some _ = Some _ |- _ => injection Hx; clear Hx; intros; subst
  | Hx : context [match ?x with _ => _ end] |- _ =>
      match type of Hx with
      | _ = Ok _ => destruct x eqn:?; simpl in Hx; try discriminate Hx
      end
  end.

(** C10: a row accepted by [validate_row] keeps every key of the input row,
    and every key other than email, quantity, unit_price, order_date and
    total keeps its input value (customer_name and payment_method among
    them). *)
Theorem validate_row_preserves_other_fields (row : dict) (n : Z) (cleaned : dict)
    (issues : list string) :
  validate_row row n = Ok (true, Some cleaned, issues) ->
  (forall k, dict_get k row <> None -> dict_get k cleaned <> None) /\
  (forall k, ~ In k ["email"; "quantity"; "unit_price"; "order_date"; "total"] ->
     dict_get k cleaned = dict_get k row).
Proof.
  intros H. unfold_validate H. inv_pairs.
  all: split; [intros k Hk; repeat apply dict_get_set_some; assumption|].
  all: intros k Hk; simpl in Hk; repeat rewrite dict_get_set_other by (intro; subst; tauto); reflexivity.
Qed.

(** C5: in a row accepted by [validate_row], total is
    [round(quantity * unit_price, 2)] computed from the cleaned quantity (an
    int, converted to float) and the cleaned unit_price, whatever total the
    input held. *)
Theorem validate_row_total_derived (row : dict) (n : Z) (cleaned : dict)
    (issues : list string) :
  validate_row row n = Ok (true, Some cleaned, issues) ->
  exists q p fq,
    dict_get "quantity" cleaned = Some (VInt q) /\
    dict_get "unit_price" cleaned = Some (VFloat p) /\
    float_of_int q = Some fq /\
    dict_get "total" cleaned = Some (VFloat (fround2 (fmul fq p))).
Proof.
  intros H. unfold_validate H. inv_pairs.
  all: unfold getitem in *; rewrite !dict_get_set in *; simpl in *; inv_pairs.
  all: unfold py_mul, py_round2 in *; inv_pairs.
  all: do 3 eexists; repeat split; eassumption.
Qed.

(** C8: a quantity that [int()] rejects (ValueError or TypeError) makes
    [validate_row] drop the row with the single issue
    [invalid_quantity_type]; in an accepted row the quantity is the parsed
    int, replaced by 1 with the issue [invalid_quantity] when it is <= 0. *)
Theorem validate_row_quantity (row : dict) (n : Z) :
  (forall v e, get_truthy "order_id" row = true -> get_truthy "product_id" row = true ->
     dict_get "quantity" row = Some v -> py_int v = Err e -> is_value_or_type_error e = true ->
     validate_row row n = Ok (false, None, ["invalid_quantity_type"])) /\
  (forall cleaned issues v q, validate_row row n = Ok (true, Some cleaned, issues) ->
     dict_get "quantity" row = Some v -> py_int v = Ok q ->
     dict_get "quantity" cleaned = Some (VInt (if q <=? 0 then 1 else q)) /\
     (q <= 0 -> In "invalid_quantity" issues)).
Proof.
  split.
  - intros v e Ho Hp Hv He Hve.
    unfold validate_row, try_vt, bind, getitem; rewrite Ho, Hp; simpl.
    destruct (negb (get_truthy "email" row)); simpl;
      rewrite Hv; simpl; rewrite He; simpl; rewrite Hve; reflexivity.
  - intros cleaned issues v q H Hv Hq.
    unfold validate_row, try_vt, bind, getitem in H; rewrite Hv in H; simpl in H;
      rewrite Hq in H; simpl in H; split_matches H; inv_pairs.
    all: rewrite !dict_get_set; simpl; split; [reflexivity|intros Hle].
    all: first [tauto | exfalso; match goal with
                        | Hx : (_ <=? 0) = false |- _ => apply Z.leb_gt in Hx; lia
                        end].
Qed.

(** The price step of [validate_row] for a price [p0] read without error
    and normalised to [p] with [issue]. *)
Lemma price_step_not_fatal (row : dict) (n q : Z) (p0 p : float) (issue : string) :
  reaches_price_check row q ->
  (get_truthy "unit_price" row = false /\ p0 = fzero \/
   get_truthy "unit_price" row = true /\
   exists w, dict_get "unit_price" row = Some w /\ py_float w = Ok p0) ->
  (fltb p0 fzero = true /\ p = fzero /\ issue = "negative_price" \/
   fltb p0 fzero = false /\ feqb p0 fzero = true /\ p = p0 /\ issue = "zero_price") ->
  price_not_fatal row n q p issue.
Proof.
  intros (Ho & Hp & v & Hv & Hq) Hread Hnorm.
  assert (Hstep : forall (G : res validate_result -> Prop),
    G (let '(cleaned, issues) :=
         if negb (get_truthy "email" row)
         then (dict_set "email" (VStr "unknown@placeholder.com") row, ["missing_email"])
         else (row, []) in
       let '(quantity, issues) :=
         if q <=? 0 then (1, issues ++ ["invalid_quantity"]) else (q, issues) in
       let cleaned := dict_set "quantity" (VInt quantity) cleaned in
       let issues := issues ++ [issue] in
       let cleaned := dict_set "unit_price" (VFloat p) cleaned in
       match parse_date date_formats row with
       | Ok None => Ok (false, None, ["unparseable_date"])
       | Ok (Some out) =>
           let cleaned := dict_set "order_date" (VStr out) cleaned in
           let* q := getitem "quantity" cleaned in
           let* p := getitem "unit_price" cleaned in
           let* prod := py_mul q p in
           let* total := py_round2 prod in
           Ok (true, Some (dict_set "total" total cleaned), issues)
       | Err e => Err e
       end) -> G (validate_row row n)).
  { intros G HG. unfold validate_row, try_vt, bind, getitem.
    rewrite Ho, Hp, Hv. cbv beta iota. rewrite Hq. cbv beta iota.
    destruct Hread as [[Hu ->] | [Hu (w & Hw & Hf)]]; rewrite Hu; cbv beta iota;
      [|rewrite Hw; cbv beta iota; rewrite Hf; cbv beta iota];
      (destruct Hnorm as [(Hl & -> & ->) | (Hl & He & -> & ->)]; rewrite Hl; cbv beta iota;
       [|rewrite He; cbv beta iota]);
      destruct (negb (get_truthy "email" row)), (q <=? 0);
      destruct (parse_date date_formats row) as [[out|]|]; exact HG. }
  split; [|split].
  - apply (Hstep (fun r => r <> Ok (false, None, ["invalid_price_type"]))).
    destruct (negb (get_truthy "email" row)), (q <=? 0); cbv beta iota;
      destruct (parse_date date_formats row) as [[out|]|]; try discriminate;
      unfold getitem; rewrite !dict_get_set; simpl;
      destruct (float_of_int _); simpl; discriminate.
  - apply (Hstep (fun r => forall c iss, r = Ok (true, Some c, iss) ->
                     dict_get "unit_price" c = Some (VFloat p) /\ In issue iss)).
    intros c iss H.
    destruct (negb (get_truthy "email" row)), (q <=? 0); cbv beta iota in H;
      destruct (parse_date date_formats row) as [[out|]|]; try discriminate;
      unfold getitem in H; rewrite !dict_get_set in H; simpl in H;
      destruct (float_of_int _); simpl in H; try discriminate;
      injection H; intros; subst; rewrite !dict_get_set; simpl;
      (split; [reflexivity|simpl; rewrite ?in_app_iff; simpl; tauto]).
  - intros out fq Hd Hfq.
    apply (Hstep (fun r => exists c iss, r = Ok (true, Some c, iss))).
    rewrite Hd.
    destruct (negb (get_truthy "email" row)), (q <=? 0); cbv beta iota;
      unfold getitem; rewrite !dict_get_set; simpl; rewrite Hfq; simpl; eauto.
Qed.

(** C7: once validate_row reaches the unit_price check, an absent or empty
    price becomes 0.0 with the issue [zero_price] and is not fatal; a
    non-empty string [float()] rejects drops the row as
    [invalid_price_type]; a negative price becomes 0.0 with the issue
    [negative_price]; a price equal to 0.0 is kept with the issue
    [zero_price]; none of the last two is fatal. *)
Theorem validate_row_unit_price (row : dict) (n q : Z) :
  reaches_price_check row q ->
  ((dict_get "unit_price" row = None \/ dict_get "unit_price" row = Some (VStr "")) ->
     price_not_fatal row n q fzero "zero_price") /\
  (forall s, dict_get "unit_price" row = Some (VStr s) -> s <> "" -> float_of_str s = None ->
     validate_row row n = Ok (false, None, ["invalid_price_type"])) /\
  (forall w p, dict_get "unit_price" row = Some w -> truthy w = true -> py_float w = Ok p ->
     fltb p fzero = true -> price_not_fatal row n q fzero "negative_price") /\
  (forall w p, dict_get "unit_price" row = Some w -> truthy w = true -> py_float w = Ok p ->
     feqb p fzero = true -> price_not_fatal row n q p "zero_price").
Proof.
  intros Hr.
  assert (Hz : fltb fzero fzero = false) by exact (fltb_zero _ feqb_zero).
  split; [|split; [|split]].
  - intros Hu. apply (price_step_not_fatal row n q fzero); [exact Hr| |].
    + left; split; [|reflexivity].
      unfold get_truthy; destruct Hu as [-> | ->]; reflexivity.
    + right; repeat split; [exact Hz|exact feqb_zero].
  - intros s Hs Hne Hf.
    destruct Hr as (Ho & Hp & v & Hv & Hq).
    assert (Hu : get_truthy "unit_price" row = true).
    { unfold get_truthy; rewrite Hs; simpl.
      destruct (String.eqb s "") eqn:E; [apply String.eqb_eq in E; contradiction|reflexivity]. }
    unfold validate_row, try_vt, bind, getitem.
    rewrite Ho, Hp, Hv. cbv beta iota. rewrite Hq. cbv beta iota.
    rewrite Hu, Hs. cbv beta iota. simpl py_float. rewrite Hf. cbv beta iota.
    destruct (negb (get_truthy "email" row)), (q <=? 0); reflexivity.
  - intros w p Hw Ht Hf Hl.
    apply (price_step_not_fatal row n q p); [exact Hr| |].
    + right; split; [unfold get_truthy; rewrite Hw; exact Ht|eauto].
    + left; auto.
  - intros w p Hw Ht Hf He.
    apply (price_step_not_fatal row n q p); [exact Hr| |].
    + right; split; [unfold get_truthy; rewrite Hw; exact Ht|eauto].
    + right; repeat split; [exact (fltb_zero _ He)|exact He].
Qed.
(** ** Deduplication *)

Lemma map_nth_seq_self {A} (l : list A) (d : A) :
  map (fun j => nth j l d) (seq 0 (length l)) = l.
Proof.
  induction l as [|a l IH]; [reflexivity|].
  simpl. f_equal. rewrite <- seq_shift, map_map. exact IH.
Qed.

Lemma forallb_map_comp {A B} (f : B -> bool) (h : A -> B) (xs : list A) :
  forallb f (map h xs) = forallb (fun x => f (h x)) xs.
Proof. induction xs; simpl; congruence. Qed.

Lemma forallb_ext_in' {A} (f g : A -> bool) (xs : list A) :
  (forall x, In x xs -> f x = g x) -> forallb f xs = forallb g xs.
Proof.
  induction xs as [|x xs IH]; intros H; simpl; [reflexivity|].
  rewrite H by (left; reflexivity). rewrite IH by (intros; apply H; right; assumption).
  reflexivity.
Qed.

Lemma existsb_forallb_negb {A} (f : A -> bool) (xs : list A) :
  forallb (fun x => negb (f x)) xs = negb (existsb f xs).
Proof. induction xs; simpl; [reflexivity|]. rewrite IHxs, negb_orb. reflexivity. Qed.

Lemma first_occurrences_snoc (pre : list dict) (r : dict) :
  first_occurrences (pre ++ [r]) =
  first_occurrences pre ++ (if existsb (fun r' => id_eqb r' r) pre then [] else [r]).
Proof.
  unfold first_occurrences.
  rewrite length_app; simpl length; rewrite Nat.add_1_r, seq_S, filter_app, map_app.
  f_equal.
  - rewrite (filter_ext_in _ (is_first_occurrence pre)).
    + apply map_ext_in. intros i Hi.
      apply filter_In in Hi as [Hi _]; apply in_seq in Hi.
      apply app_nth1; lia.
    + intros i Hi. apply in_seq in Hi. unfold is_first_occurrence.
      apply forallb_ext_in'. intros j Hj. apply in_seq in Hj.
      rewrite !app_nth1 by lia. reflexivity.
  - simpl. unfold is_first_occurrence.
    rewrite app_nth2 by lia. rewrite Nat.sub_diag. simpl nth.
    assert (Hf : forallb (fun j => negb (id_eqb (nth j (pre ++ [r]) []) r)) (seq 0 (length pre))
               = negb (existsb (fun r' => id_eqb r' r) pre)).
    { rewrite <- existsb_forallb_negb.
      rewrite <- (map_nth_seq_self pre []) at 2. rewrite forallb_map_comp.
      apply forallb_ext_in'. intros j Hj. apply in_seq in Hj.
      rewrite app_nth1 by lia. reflexivity. }
    rewrite Hf. destruct (existsb _ pre); simpl; [reflexivity|].
    rewrite app_nth2 by lia. rewrite Nat.sub_diag. reflexivity.
Qed.

Lemma first_occurrences_nil : first_occurrences [] = [].
Proof. reflexivity. Qed.

Lemma first_occurrences_length (l : list dict) :
  (length (first_occurrences l) <= length l)%nat.
Proof.
  induction l as [|r l IH] using rev_ind; [simpl; lia|].
  rewrite first_occurrences_snoc, !length_app.
  destruct (existsb _ l); simpl; lia.
Qed.

Lemma first_occurrences_incl (l : list dict) (x : dict) :
  In x (first_occurrences l) -> In x l.
Proof.
  induction l as [|r l IH] using rev_ind; [simpl; tauto|].
  rewrite first_occurrences_snoc. intros H.
  apply in_app_or in H as [H|H]; apply in_or_app; [left; auto|].
  destruct (existsb _ l); [destruct H| right; exact H].
Qed.

Lemma id_eqb_str (a b : dict) (x y : string) :
  dict_get "order_id" a = Some (VStr x) -> dict_get "order_id" b = Some (VStr y) ->
  id_eqb a b = String.eqb x y.
Proof. intros Ha Hb. unfold id_eqb. rewrite Ha, Hb. reflexivity. Qed.

Lemma id_eqb_true (a b : dict) :
  id_eqb a b = true -> exists x, dict_get "order_id" a = Some (VStr x) /\
                                 dict_get "order_id" b = Some (VStr x).
Proof.
  unfold id_eqb. destruct (dict_get "order_id" a) as [[]|]; try discriminate;
  destruct (dict_get "order_id" b) as [[]|]; try discriminate.
  intros H. apply String.eqb_eq in H. subst. eauto.
Qed.

Lemma seen_ids_exists (pre : list dict) (r : dict) (s : string) :
  Forall has_str_order_id pre -> dict_get "order_id" r = Some (VStr s) ->
  existsb (py_eqb (VStr s)) (map oid (first_occurrences pre)) =
  existsb (fun r' => id_eqb r' r) pre.
Proof.
  induction pre as [|r' pre IH] using rev_ind; intros Hf Hr; [reflexivity|].
  apply Forall_app in Hf as [Hf Hr'].
  inversion Hr' as [|? ? [s' Hs'] _]; subst.
  rewrite first_occurrences_snoc, map_app, existsb_app, IH by assumption.
  rewrite existsb_app. simpl. rewrite (id_eqb_str r' r s' s Hs' Hr), orb_false_r.
  case_eq (existsb (fun r'0 => id_eqb r'0 r') pre); intros He.
  - simpl. rewrite orb_false_r.
    case_eq (String.eqb s' s); intros Hss; [|rewrite orb_false_r; reflexivity].
    apply String.eqb_eq in Hss; subst s'.
    apply existsb_exists in He as [r'' [Hin Heq]].
    apply id_eqb_true in Heq as [x [Hx1 Hx2]].
    rewrite Hs' in Hx2; injection Hx2 as <-.
    rewrite orb_true_r. apply (proj2 (existsb_exists _ _)). exists r''. split; [exact Hin|].
    rewrite (id_eqb_str r'' r s s Hx1 Hr). apply String.eqb_refl.
  - simpl. unfold oid. rewrite Hs'. simpl. rewrite orb_false_r, String.eqb_sym. reflexivity.
Qed.

Lemma dedup_loop_first_occurrences (rest pre : list dict) (seen : list (pyval * nat)) :
  Forall has_str_order_id (pre ++ rest) ->
  map fst seen = map oid (first_occurrences pre) ->
  dedup_loop rest seen (first_occurrences pre)
    (length pre - length (first_occurrences pre))%nat =
  Ok (first_occurrences (pre ++ rest),
      (length (pre ++ rest) - length (first_occurrences (pre ++ rest)))%nat).
Proof.
  revert pre seen.
  induction rest as [|r rest IH]; intros pre seen Hf Hseen.
  - rewrite app_nil_r. reflexivity.
  - assert (Hr : has_str_order_id r)
      by (apply Forall_app in Hf as [_ Hf]; inversion Hf; assumption).
    destruct Hr as [s Hs].
    assert (Hpre : Forall has_str_order_id pre)
      by (apply Forall_app in Hf as [Hf _]; exact Hf).
    assert (Hf' : Forall has_str_order_id ((pre ++ [r]) ++ rest))
      by (rewrite <- app_assoc; exact Hf).
    pose proof (first_occurrences_length pre) as Hle.
    simpl dedup_loop. unfold bind, getitem. rewrite Hs. simpl.
    rewrite Hseen, (seen_ids_exists pre r s Hpre Hs).
    replace (pre ++ r :: rest) with ((pre ++ [r]) ++ rest) by (rewrite <- app_assoc; reflexivity).
    pose proof (first_occurrences_snoc pre r) as Hsnoc.
    destruct (existsb (fun r' => id_eqb r' r) pre); rewrite app_nil_r in Hsnoc || idtac.
    + rewrite <- (IH (pre ++ [r]) seen Hf').
      * rewrite Hsnoc, length_app. simpl length. f_equal. lia.
      * rewrite Hsnoc. exact Hseen.
    + rewrite <- (IH (pre ++ [r]) (seen ++ [(VStr s, length (first_occurrences pre))]) Hf').
      * rewrite Hsnoc, !length_app. simpl length. f_equal. lia.
      * rewrite Hsnoc, !map_app, Hseen. simpl. unfold oid. rewrite Hs. reflexivity.
Qed.

Lemma ForallOrdPairs_snoc {A} (Rel : A -> A -> Prop) (l : list A) (x : A) :
  ForallOrdPairs Rel (l ++ [x]) <-> ForallOrdPairs Rel l /\ Forall (fun a => Rel a x) l.
Proof.
  induction l as [|a l IH]; simpl.
  - split; [intros _; split; constructor | intros _; repeat constructor].
  - split.
    + intros H. inversion H as [|? ? Ha Hl]; subst.
      apply Forall_app in Ha as [Ha Hx]. inversion Hx; subst.
      apply IH in Hl as [Hl Hlx]. split; constructor; assumption.
    + intros [H Hx]. inversion H as [|? ? Ha Hl]; subst. inversion Hx; subst.
      constructor.
      * apply Forall_app. split; [exact Ha | constructor; [assumption | constructor]].
      * apply IH. split; assumption.
Qed.

Lemma first_occurrences_distinct (l : list dict) :
  Forall has_str_order_id l ->
  ForallOrdPairs (fun a b => dict_get "order_id" a <> dict_get "order_id" b)
    (first_occurrences l).
Proof.
  induction l as [|r l IH] using rev_ind; intros Hf; [constructor|].
  apply Forall_app in Hf as [Hf Hr]. inversion Hr as [|? ? [s Hs] _]; subst.
  rewrite first_occurrences_snoc.
  case_eq (existsb (fun r' => id_eqb r' r) l); intros He;
    [rewrite app_nil_r; apply IH; exact Hf|].
  apply ForallOrdPairs_snoc. split; [apply IH; exact Hf|].
  apply Forall_forall. intros a Ha Heq.
  apply first_occurrences_incl in Ha.
  assert (Hx : id_eqb a r = true).
  { unfold id_eqb. rewrite Heq, Hs. apply String.eqb_refl. }
  assert (Hy : existsb (fun r' => id_eqb r' r) l = true)
    by (apply (proj2 (existsb_exists _ _)); exists a; split; assumption).
  congruence.
Qed.

Lemma first_occurrences_of_distinct (l : list dict) :
  Forall has_str_order_id l ->
  ForallOrdPairs (fun a b => dict_get "order_id" a <> dict_get "order_id" b) l ->
  first_occurrences l = l.
Proof.
  induction l as [|r l IH] using rev_ind; intros Hf Hd; [reflexivity|].
  apply Forall_app in Hf as [Hf _].
  apply ForallOrdPairs_snoc in Hd as [Hd Hx].
  rewrite first_occurrences_snoc, IH by assumption.
  case_eq (existsb (fun r' => id_eqb r' r) l); intros He; [|reflexivity].
  apply existsb_exists in He as [a [Ha Heq]].
  apply id_eqb_true in Heq as [x [H1 H2]].
  rewrite Forall_forall in Hx. exfalso. apply (Hx a Ha). congruence.
Qed.

Lemma dedup_from_empty (rows : list dict) :
  Forall has_str_order_id rows ->
  dedup_loop rows [] [] 0 =
  Ok (first_occurrences rows, (length rows - length (first_occurrences rows))%nat).
Proof.
  intros Hf. apply (dedup_loop_first_occurrences rows [] []); [exact Hf | reflexivity].
Qed.

(** C3: on rows whose order ids are strings (as the CSV reader yields them),
    [check_duplicates] keeps exactly the first occurrence of each order id,
    in input order, and counts every later occurrence as a duplicate; run
    again on its own output it returns the same rows and counts no duplicate;
    the order ids of its output are pairwise distinct. *)
Theorem check_duplicates_keeps_first_occurrences (rows : list dict) :
  Forall has_str_order_id rows ->
  dedup_loop rows [] [] 0 =
    Ok (first_occurrences rows, (length rows - length (first_occurrences rows))%nat) /\
  check_duplicates rows = Ok (first_occurrences rows) /\
  dedup_loop (first_occurrences rows) [] [] 0 = Ok (first_occurrences rows, O) /\
  ForallOrdPairs (fun a b => dict_get "order_id" a <> dict_get "order_id" b)
    (first_occurrences rows).
Proof.
  intros Hf.
  pose proof (first_occurrences_distinct rows Hf) as Hd.
  assert (Hf' : Forall has_str_order_id (first_occurrences rows)).
  { apply Forall_forall. intros x Hx. apply first_occurrences_incl in Hx.
    rewrite Forall_forall in Hf. apply Hf, Hx. }
  split; [apply dedup_from_empty, Hf|].
  split; [unfold check_duplicates; rewrite dedup_from_empty by exact Hf; reflexivity|].
  split; [|exact Hd].
  rewrite dedup_from_empty by exact Hf'.
  rewrite first_occurrences_of_distinct by assumption.
  rewrite Nat.sub_diag. reflexivity.
Qed.

(** ** Rows lacking the [quantity] key *)

Lemma validate_row_no_quantity (row : dict) (n : Z) :
  get_truthy "order_id" row = true -> get_truthy "product_id" row = true ->
  dict_get "quantity" row = None ->
  validate_row row n = Err KeyError.
Proof.
  intros Ho Hp Hq. unfold validate_row. rewrite Ho, Hp. cbv beta iota.
  destruct (negb (get_truthy "email" row)); unfold try_vt, bind, getitem; rewrite Hq;
    reflexivity.
Qed.

Lemma validate_all_raises (rows : list dict) (row : dict) (i : Z) (v : list dict) (s : nat) :
  In row rows -> (forall n, validate_row row n = Err KeyError) ->
  exists e, validate_all rows i v s = Err e.
Proof.
  revert i v s. induction rows as [|r rows IH]; intros i v s Hin Hrow; [destruct Hin|].
  destruct Hin as [<-|Hin].
  - simpl. rewrite Hrow. eexists; reflexivity.
  - simpl. destruct (validate_row r i) as [[[ok cl] iss]|e]; simpl; [|eexists; reflexivity].
    destruct ok; [destruct cl|]; apply IH; assumption.
Qed.

(** C2: a row whose dict has no [quantity] key (but has an order id and a
    product id) makes [validate_row] raise [KeyError] from
    [int(row["quantity"])], which [except (ValueError, TypeError)] does not
    catch; the exception leaves [run_transformation], and [run_pipeline]
    stops with [phase_failed = "transformation"], one error and no
    transformed row, instead of rejecting the row as
    [invalid_quantity_type] and completing. *)
Theorem missing_quantity_aborts_pipeline (e : env) (ex : results) (row : dict) :
  run_extraction (csv_source e) (json_source e) (api_draw e) = Ok ex ->
  In row (sales_data ex) ->
  get_truthy "order_id" row = true -> get_truthy "product_id" row = true ->
  dict_get "quantity" row = None ->
  (forall n, validate_row row n = Err KeyError) /\
  phase_failed (fst (run_pipeline e)) = Some "transformation" /\
  errors (fst (run_pipeline e)) = 1%nat /\
  transformed (fst (run_pipeline e)) = 0%nat /\
  snd (run_pipeline e) = [Extraction; Transformation].
Proof.
  intros Hex Hin Ho Hp Hq.
  assert (Hrow : forall n, validate_row row n = Err KeyError)
    by (intros n; apply validate_row_no_quantity; assumption).
  assert (Ht : exists err, run_transformation ex = Err err).
  { unfold run_transformation, bind.
    destruct (py_len (product_catalog ex)); [|eexists; reflexivity].
    destruct (validate_all_raises (sales_data ex) row 1 [] 0 Hin Hrow) as [err Herr].
    rewrite Herr. eexists; reflexivity. }
  destruct Ht as [err Ht].
  unfold run_pipeline. rewrite Hex, Ht. simpl.
  repeat split; assumption || reflexivity.
Qed.

(** ** Enrichment *)

Lemma py_eqb_str (s : string) (v : pyval) : py_eqb (VStr s) v = true <-> v = VStr s.
Proof.
  destruct v; simpl; split; intros H; try discriminate.
  - apply String.eqb_eq in H. subst. reflexivity.
  - injection H as ->. apply String.eqb_refl.
Qed.

Lemma py_eqb_str_transfer (s : string) (k k' : pyval) :
  py_eqb k k' = true -> py_eqb (VStr s) k = py_eqb (VStr s) k'.
Proof.
  intros H. destruct k, k'; simpl in *; try discriminate; try reflexivity.
  apply String.eqb_eq in H. subst. reflexivity.
Qed.

Lemma lookup_find_set (s : string) (k v : pyval) (d : list (pyval * pyval)) :
  lookup_find (VStr s) (lookup_set k v d) =
  if py_eqb (VStr s) k then Some v else lookup_find (VStr s) d.
Proof.
  induction d as [|[k' v'] d IH]; cbn [lookup_set lookup_find]; [reflexivity|].
  case_eq (py_eqb k k'); intros Hkk; cbn [lookup_find].
  - rewrite (py_eqb_str_transfer s k k' Hkk). destruct (py_eqb (VStr s) k'); reflexivity.
  - rewrite IH.
    case_eq (py_eqb (VStr s) k); intros Hk; [|reflexivity].
    case_eq (py_eqb (VStr s) k'); intros Hk'; [|reflexivity].
    apply py_eqb_str in Hk, Hk'. subst. simpl in Hkk. rewrite String.eqb_refl in Hkk.
    discriminate.
Qed.

Lemma build_lookup_find (catalog : list pyval) (acc lk : list (pyval * pyval)) (s : string) :
  build_lookup catalog acc = Ok lk ->
  lookup_find (VStr s) lk =
  fold_left (fun acc p => if entry_has_id p s then Some p else acc) catalog
    (lookup_find (VStr s) acc).
Proof.
  revert acc. induction catalog as [|p catalog IH]; intros acc H.
  - injection H as <-. reflexivity.
  - simpl in H. unfold bind in H.
    destruct (subscript p "product_id") as [k|e] eqn:Hk; [|discriminate].
    destruct (hashable k); [|discriminate].
    simpl. rewrite (IH _ H), lookup_find_set. f_equal.
    destruct p as [| | | | | l | d]; try discriminate. simpl in Hk |- *. unfold getitem in Hk.
    destruct (dict_get "product_id" d) as [k'|]; [injection Hk as Hk; subst k'|discriminate].
    destruct k; simpl; try reflexivity. rewrite String.eqb_sym. reflexivity.
Qed.

Lemma occurrences_app (v : pyval) (l l' : list pyval) :
  occurrences v (l ++ l') = (occurrences v l + occurrences v l')%nat.
Proof. unfold occurrences. rewrite filter_app, length_app. reflexivity. Qed.

Lemma occurrences_existsb (v : pyval) (l : list pyval) :
  existsb (py_eqb v) l = negb (Nat.eqb (occurrences v l) 0).
Proof.
  unfold occurrences. induction l as [|x l IH]; [reflexivity|].
  simpl. destruct (py_eqb v x); simpl; [reflexivity|exact IH].
Qed.

Lemma set_add_occurrences (s : string) (k : pyval) (m : list pyval) :
  ((occurrences (VStr s) m <= 1 -> occurrences (VStr s) (set_add k m) <= 1) /\
   occurrences (VStr s) m <= occurrences (VStr s) (set_add k m) /\
   (k = VStr s -> 1 <= occurrences (VStr s) (set_add k m)))%nat.
Proof.
  unfold set_add. case_eq (existsb (py_eqb k) m); intros He.
  - split; [tauto|]. split; [lia|]. intros ->.
    rewrite occurrences_existsb in He. destruct (occurrences (VStr s) m); [discriminate|lia].
  - rewrite occurrences_app.
    assert (Hk1 : occurrences (VStr s) [k] = if py_eqb (VStr s) k then 1%nat else 0%nat)
      by (unfold occurrences; cbn [filter]; destruct (py_eqb (VStr s) k); reflexivity).
    rewrite Hk1.
    case_eq (py_eqb (VStr s) k); intros Hk.
    + apply py_eqb_str in Hk. subst k.
      rewrite occurrences_existsb in He. destruct (occurrences (VStr s) m); [|discriminate].
      lia.
    + split; [lia|]. split; [lia|]. intros ->. simpl in Hk. rewrite String.eqb_refl in Hk.
      discriminate.
Qed.

Lemma enrich_row_spec (lk : list (pyval * pyval)) (row : dict) (m : list pyval)
    (out : dict) (m' : list pyval) :
  enrich_row lk row m = Ok (out, m') ->
  (forall s, occurrences (VStr s) m <= 1 -> occurrences (VStr s) m' <= 1)%nat /\
  (forall s, occurrences (VStr s) m <= occurrences (VStr s) m')%nat /\
  (forall s, dict_get "product_id" row = Some (VStr s) ->
     (lookup_find (VStr s) lk = None ->
        out = dict_set "current_stock" (VInt (-1))
                (dict_set "category" (VStr "UNKNOWN")
                   (dict_set "product_name" (VStr "UNKNOWN") row)) /\
        (1 <= occurrences (VStr s) m')%nat) /\
     (forall p, lookup_find (VStr s) lk = Some p -> truthy p = true ->
        exists name category stock,
          subscript p "name" = Ok name /\ subscript p "category" = Ok category /\
          subscript p "stock" = Ok stock /\
          out = dict_set "current_stock" stock
                  (dict_set "category" category (dict_set "product_name" name row)))).
Proof.
  intros H. unfold enrich_row, bind, getitem, lookup_get in H.
  destruct (dict_get "product_id" row) as [pid|] eqn:Hpid; [|discriminate].
  destruct (hashable pid); [|discriminate].
  destruct (lookup_find pid lk) as [p|] eqn:Hfind.
  - destruct (truthy p) eqn:Htr.
    + destruct (subscript p "name") as [name|] eqn:Hn; [|discriminate].
      destruct (subscript p "category") as [cat|] eqn:Hc; [|discriminate].
      destruct (subscript p "stock") as [stock|] eqn:Hs; [|discriminate].
      destruct (dict_get "order_id" _); [|discriminate].
      destruct (py_cmp_int true stock LOW_STOCK_THRESHOLD) as [low|]; [|discriminate].
      destruct (if low then subscript p "product_id" else Ok VNone); [|discriminate].
      injection H as <- <-.
      split; [tauto|]. split; [lia|]. intros s Hs'. injection Hs' as ->.
      split; [congruence|]. intros p' Hp' _. rewrite Hfind in Hp'. injection Hp' as <-.
      exists name, cat, stock. auto.
    + injection H as <- <-.
      split; [intros s; apply set_add_occurrences|].
      split; [intros s; apply set_add_occurrences|].
      intros s Hs'. injection Hs' as ->.
      split; [intros _; split; [reflexivity | apply set_add_occurrences; reflexivity]|].
      intros p' Hp'. rewrite Hfind in Hp'. injection Hp' as <-. congruence.
  - injection H as <- <-.
    split; [intros s; apply set_add_occurrences|].
    split; [intros s; apply set_add_occurrences|].
    intros s Hs'. injection Hs' as ->.
    split; [intros _; split; [reflexivity | apply set_add_occurrences; reflexivity]|].
    intros p' Hp'. congruence.
Qed.

Lemma enrich_loop_spec (lk : list (pyval * pyval)) (rows enr : list dict)
    (miss : list pyval) (E : list dict) (M : list pyval) :
  enrich_loop lk rows enr miss = Ok (E, M) ->
  exists E', E = enr ++ E' /\ length E' = length rows /\
  (forall s, occurrences (VStr s) miss <= 1 -> occurrences (VStr s) M <= 1)%nat /\
  (forall s, occurrences (VStr s) miss <= occurrences (VStr s) M)%nat /\
  (forall i row s, nth_error rows i = Some row -> dict_get "product_id" row = Some (VStr s) ->
     (lookup_find (VStr s) lk = None ->
        nth_error E' i = Some (dict_set "current_stock" (VInt (-1))
                                (dict_set "category" (VStr "UNKNOWN")
                                   (dict_set "product_name" (VStr "UNKNOWN") row))) /\
        (1 <= occurrences (VStr s) M)%nat) /\
     (forall p, lookup_find (VStr s) lk = Some p -> truthy p = true ->
        exists name category stock,
          subscript p "name" = Ok name /\ subscript p "category" = Ok category /\
          subscript p "stock" = Ok stock /\
          nth_error E' i = Some (dict_set "current_stock" stock
                                  (dict_set "category" category
                                     (dict_set "product_name" name row))))).
Proof.
  revert enr miss. induction rows as [|row rows IH]; intros enr miss H.
  - injection H as <- <-. exists []. rewrite app_nil_r.
    split; [reflexivity|]. split; [reflexivity|]. split; [tauto|]. split; [lia|].
    intros i row s Hi. destruct i; discriminate.
  - simpl in H. unfold bind in H.
    destruct (enrich_row lk row miss) as [[out m1]|e] eqn:Hrow; [|discriminate].
    simpl in H. apply IH in H as [E'' [HE [Hlen [Hle [Hmono Hrows]]]]].
    destruct (enrich_row_spec lk row miss out m1 Hrow) as [Hle1 [Hmono1 Hrow1]].
    exists (out :: E''). split; [rewrite HE, <- app_assoc; reflexivity|].
    split; [simpl; rewrite Hlen; reflexivity|].
    split; [intros s Hs; apply Hle, Hle1, Hs|].
    split; [intros s; specialize (Hmono s); specialize (Hmono1 s); lia|].
    intros [|i] r s Hi Hs.
    + injection Hi as <-. destruct (Hrow1 s Hs) as [Hnone Hsome]. split.
      * intros Hf. destruct (Hnone Hf) as [-> Hocc]. split; [reflexivity|].
        specialize (Hmono s). lia.
      * intros p Hp Ht. destruct (Hsome p Hp Ht) as [n [c [st [Hn [Hc [Hst ->]]]]]].
        exists n, c, st. auto.
    + exact (Hrows i r s Hi Hs).
Qed.

Lemma catalog_fold_has_id (catalog : list pyval) (s : string) (acc : option pyval) (p : pyval) :
  fold_left (fun acc p => if entry_has_id p s then Some p else acc) catalog acc = Some p ->
  entry_has_id p s = true \/ acc = Some p.
Proof.
  revert acc. induction catalog as [|q catalog IH]; intros acc H; [right; exact H|].
  simpl in H. apply IH in H as [H|H]; [left; exact H|].
  destruct (entry_has_id q s) eqn:Hq; [injection H as ->; left; exact Hq | right; exact H].
Qed.

Lemma entry_has_id_truthy (p : pyval) (s : string) :
  entry_has_id p s = true -> truthy p = true.
Proof.
  destruct p as [| | | | | l | d]; try discriminate. simpl.
  destruct d; [discriminate | reflexivity].
Qed.

(** C6: when enrichment succeeds, it keeps one output row per input row, in
    order; for a row whose product id [s] is in no catalog entry, the output
    row is the input row with exactly [product_name = "UNKNOWN"],
    [category = "UNKNOWN"] and [current_stock = -1] set, and [s] occurs
    exactly once in the missing-products set, however many rows reference
    it; for a row whose product id has a catalog entry (the last one with
    that id, as the dict comprehension keeps), the entry's [name],
    [category] and [stock] are copied onto the row. *)
Theorem enrich_with_products_join (rows : list dict) (catalog : list pyval)
    (enriched : list dict) (missing : list pyval) :
  enrich_run rows catalog = Ok (enriched, missing) ->
  enrich_with_products rows catalog = Ok enriched /\
  length enriched = length rows /\
  (forall i row s, nth_error rows i = Some row -> dict_get "product_id" row = Some (VStr s) ->
     (catalog_entry catalog s = None ->
        nth_error enriched i = Some (dict_set "current_stock" (VInt (-1))
                                      (dict_set "category" (VStr "UNKNOWN")
                                         (dict_set "product_name" (VStr "UNKNOWN") row))) /\
        occurrences (VStr s) missing = 1%nat) /\
     (forall p, catalog_entry catalog s = Some p ->
        exists name category stock,
          subscript p "name" = Ok name /\ subscript p "category" = Ok category /\
          subscript p "stock" = Ok stock /\
          nth_error enriched i = Some (dict_set "current_stock" stock
                                        (dict_set "category" category
                                           (dict_set "product_name" name row))))).
Proof.
  intros H.
  split; [unfold enrich_with_products; rewrite H; reflexivity|].
  unfold enrich_run, bind in H.
  destruct (build_lookup catalog []) as [lk|] eqn:Hlk; [|discriminate].
  destruct (enrich_loop lk rows [] []) as [[E M]|] eqn:Hloop; [|discriminate].
  destruct (py_sorted_ok (snd (E, M))); [|discriminate].
  injection H as <- <-.
  apply enrich_loop_spec in Hloop as [E' [HE [Hlen [Hle [_ Hrows]]]]].
  simpl in HE. subst E'.
  split; [exact Hlen|].
  intros i row s Hi Hs.
  assert (Hcat : lookup_find (VStr s) lk = catalog_entry catalog s)
    by (rewrite (build_lookup_find catalog [] lk s Hlk); reflexivity).
  destruct (Hrows i row s Hi Hs) as [Hnone Hsome]. rewrite Hcat in Hnone, Hsome.
  split.
  - intros Hc. destruct (Hnone Hc) as [Hout Hocc]. split; [exact Hout|].
    assert (Hle1 : (occurrences (VStr s) M <= 1)%nat) by (apply Hle; unfold occurrences; simpl; lia).
    lia.
  - intros p Hp. apply Hsome; [exact Hp|].
    destruct (catalog_fold_has_id catalog s None p Hp) as [Hid|Hid]; [|discriminate].
    apply (entry_has_id_truthy p s Hid).
Qed.

(** ** Loading *)

Lemma load_rows_shift (b : list dict) (t : table) (i s : nat) :
  load_rows b t i s =
  match load_rows b t 0 0 with
  | Ok (a, a', t') => Ok ((i + a)%nat, (s + a')%nat, t')
  | Err e => Err e
  end.
Proof.
  revert t i s. induction b as [|row b IH]; intros t i s.
  - simpl. rewrite !Nat.add_0_r. reflexivity.
  - simpl. unfold bind.
    destruct (row_params row) as [params|e]; [|reflexivity].
    destruct (sql_bind_all params) as [u|e]; [|reflexivity].
    destruct (insert_or_ignore params t) as [t' added].
    destruct added.
    + rewrite (IH t' (S i) s), (IH t' 1%nat 0%nat).
      destruct (load_rows b t' 0 0) as [[[a a'] t'']|e]; [|reflexivity].
      f_equal. f_equal. f_equal; lia.
    + rewrite (IH t' i (S s)), (IH t' 0%nat 1%nat).
      destruct (load_rows b t' 0 0) as [[[a a'] t'']|e]; [|reflexivity].
      f_equal. f_equal. f_equal; lia.
Qed.

Lemma load_rows_app (b1 b2 : list dict) (t : table) (i s : nat) :
  load_rows (b1 ++ b2) t i s =
  match load_rows b1 t i s with
  | Ok (i', s', t') => load_rows b2 t' i' s'
  | Err e => Err e
  end.
Proof.
  revert t i s. induction b1 as [|row b1 IH]; intros t i s; [reflexivity|].
  simpl. unfold bind.
  destruct (row_params row) as [params|e]; [|reflexivity].
  destruct (sql_bind_all params) as [u|e]; [|reflexivity].
  destruct (insert_or_ignore params t) as [t' added].
  destruct added; apply IH.
Qed.

Lemma load_rows_count (b : list dict) (t t' : table) (i s i' s' : nat) :
  load_rows b t i s = Ok (i', s', t') -> (i' + s' = i + s + length b)%nat.
Proof.
  revert t i s. induction b as [|row b IH]; intros t i s H.
  - injection H as <- <- <-. simpl. lia.
  - simpl in H. unfold bind in H.
    destruct (row_params row) as [params|e]; [|discriminate].
    destruct (sql_bind_all params) as [u|e]; [|discriminate].
    destruct (insert_or_ignore params t) as [t'' added].
    simpl length. destruct added; apply IH in H; lia.
Qed.

Lemma committed_log_S (k p : nat) :
  committed_log k (S p) = [Processing k; Committed k] ++ committed_log (S k) p.
Proof. reflexivity. Qed.

Lemma committed_log_no_loss (k p m : nat) : ~ In (ConnectionLost m) (committed_log k p).
Proof.
  unfold committed_log. intros H. apply in_flat_map in H as [j [_ [H|[H|H]]]];
    discriminate || exact H.
Qed.

Lemma load_loop_connection_lost (bs : list (list dict)) (k n : nat) (draw : bool)
    (x : table) (ti ts : nat) (log : list load_event)
    (r : res (nat * nat)) (c : conn) (log' : list load_event) (m : nat) :
  load_loop bs k n draw (mkConn x x) ti ts log = (r, c, log') ->
  (forall j, ~ In (ConnectionLost j) log) ->
  In (ConnectionLost m) log' ->
  exists p a a', m = (k + p)%nat /\ (p < length bs)%nat /\ m = n /\
    load_batch (concat (firstn p bs)) x = Ok (a, a', committed c) /\
    r = Ok ((ti + a)%nat, (ts + a')%nat) /\
    log' = log ++ committed_log k p ++ [Processing m; ConnectionLost m].
Proof.
  revert k x ti ts log. induction bs as [|b bs IH]; intros k x ti ts log H Hlog Hin.
  - injection H as <- <- <-. exfalso. exact (Hlog m Hin).
  - simpl in H.
    destruct (simulate_connection_issue k n draw) eqn:Hsim.
    + injection H as <- <- <-.
      assert (Hm : m = k).
      { rewrite <- app_assoc in Hin. apply in_app_or in Hin as [Hin|Hin];
          [exfalso; exact (Hlog m Hin)|].
        destruct Hin as [Hin|[Hin|[]]]; [discriminate | injection Hin as ->; reflexivity]. }
      subst m. exists O, O, O.
      unfold simulate_connection_issue in Hsim. apply andb_true_iff in Hsim as [Hk _].
      apply Nat.eqb_eq in Hk.
      split; [lia|]. split; [simpl; lia|]. split; [exact Hk|].
      split; [reflexivity|]. split; [rewrite !Nat.add_0_r; reflexivity|].
      rewrite <- app_assoc. reflexivity.
    + destruct (load_batch b x) as [[[a a'] t]|e] eqn:Hb.
      * assert (Hlog' : forall j, ~ In (ConnectionLost j) ((log ++ [Processing k]) ++ [Committed k])).
        { intros j Hj. rewrite <- app_assoc in Hj. apply in_app_or in Hj as [Hj|Hj];
            [exact (Hlog j Hj)|].
          destruct Hj as [Hj|[Hj|[]]]; discriminate. }
        destruct (IH (S k) t (ti + a)%nat (ts + a')%nat _ H Hlog' Hin)
          as [p [c1 [c2 [Hm [Hp [Hn [Hload [Hr Hl]]]]]]]].
        exists (S p), (a + c1)%nat, (a' + c2)%nat.
        split; [lia|]. split; [simpl; lia|]. split; [exact Hn|].
        split.
        { simpl firstn. simpl concat. unfold load_batch. rewrite load_rows_app.
          unfold load_batch in Hb. rewrite Hb, load_rows_shift.
          unfold load_batch in Hload. rewrite Hload. reflexivity. }
        split; [rewrite Hr; f_equal; f_equal; lia|].
        rewrite Hl, committed_log_S, <- !app_assoc. reflexivity.
      * injection H as <- <- <-. exfalso.
        apply in_app_or in Hin as [Hin|[Hin|[]]]; [exact (Hlog m Hin)|discriminate].
Qed.

Lemma make_batches_nil : make_batches [] = [].
Proof. reflexivity. Qed.

Lemma make_batches_small (rows : list dict) :
  (0 < length rows <= BATCH_SIZE)%nat -> make_batches rows = [rows].
Proof.
  intros H. unfold make_batches, py_range_step, BATCH_SIZE in *.
  replace ((length rows + 10 - 1) / 10)%nat with 1%nat.
  - cbn [seq map]. rewrite Nat.mul_0_l. cbn [skipn]. rewrite firstn_all2 by lia. reflexivity.
  - apply Nat.div_unique with (length rows - 1)%nat; lia.
Qed.

Lemma make_batches_cons (rows : list dict) :
  (BATCH_SIZE < length rows)%nat ->
  make_batches rows = firstn BATCH_SIZE rows :: make_batches (skipn BATCH_SIZE rows).
Proof.
  intros H. unfold make_batches, py_range_step, BATCH_SIZE in *.
  rewrite length_skipn.
  assert (Hd : ((length rows + 10 - 1) / 10 = S ((length rows - 10 + 10 - 1) / 10))%nat).
  { replace (length rows + 10 - 1)%nat with (1 * 10 + (length rows - 10 + 10 - 1))%nat by lia.
    rewrite Nat.div_add_l by lia. reflexivity. }
  rewrite Hd. cbn [seq map]. f_equal.
  rewrite <- seq_shift, !map_map. apply map_ext. intros j.
  rewrite skipn_skipn. f_equal. f_equal. lia.
Qed.

Lemma make_batches_shape (rows : list dict) :
  concat (make_batches rows) = rows /\
  Forall (fun b => length b = BATCH_SIZE) (removelast (make_batches rows)) /\
  Forall (fun b => 1 <= length b <= BATCH_SIZE)%nat (make_batches rows).
Proof.
  remember (length rows) as n eqn:Hn.
  assert (Hle : (length rows <= n)%nat) by lia. clear Hn. revert rows Hle.
  induction n as [n IH] using lt_wf_ind. intros rows Hle.
  destruct (Nat.eq_dec (length rows) 0) as [H0|H0].
  - apply length_zero_iff_nil in H0. subst rows. repeat constructor.
  - destruct (Nat.le_gt_cases (length rows) BATCH_SIZE) as [Hs|Hs].
    + rewrite make_batches_small by lia. simpl. rewrite app_nil_r.
      split; [reflexivity|]. split; constructor; [lia | constructor].
    + rewrite make_batches_cons by exact Hs.
      assert (Hlt : (length (skipn BATCH_SIZE rows) < n)%nat)
        by (rewrite length_skipn; unfold BATCH_SIZE in *; lia).
      destruct (IH _ Hlt (skipn BATCH_SIZE rows) (le_n _)) as [Hc [Hr Hf]].
      assert (Hne : make_batches (skipn BATCH_SIZE rows) <> []).
      { intros He. rewrite He in Hc. cbn [concat] in Hc.
        assert (Hl : length (skipn BATCH_SIZE rows) = O) by (rewrite <- Hc; reflexivity).
        rewrite length_skipn in Hl. lia. }
      assert (Hfl : length (firstn BATCH_SIZE rows) = BATCH_SIZE)
        by (rewrite length_firstn; lia).
      split; [cbn [concat]; rewrite Hc; apply firstn_skipn|].
      split.
      * destruct (make_batches (skipn BATCH_SIZE rows)) as [|b bs] eqn:Hb;
          [exfalso; apply Hne; reflexivity|].
        change (removelast (firstn BATCH_SIZE rows :: b :: bs))
          with (firstn BATCH_SIZE rows :: removelast (b :: bs)).
        constructor; assumption.
      * constructor; [unfold BATCH_SIZE in *; lia | exact Hf].
Qed.

(** C1: [run_loading] cuts the rows into consecutive batches of
    [BATCH_SIZE = 10] rows, the last one possibly shorter, and processes
    them in order; when the simulated connection loss hits batch [k] of [n]
    ([k = n], the only batch it can hit), the run returns normally with the
    counts of loading batches [1 .. k-1], the durable table is the initial
    one with exactly those batches loaded (nothing of batch [k]), and the
    log shows batches [1 .. k-1] processed and committed, batch [k]
    processed and lost, and no later batch. *)
Theorem run_loading_batch_atomicity (rows : list dict) (draw : bool) (db0 : table)
    (r : res (nat * nat)) (t : table) (log : list load_event) (k : nat) :
  run_loading rows draw db0 = (r, t, log) ->
  In (ConnectionLost k) log ->
  (concat (make_batches rows) = rows /\
   Forall (fun b => length b = BATCH_SIZE) (removelast (make_batches rows)) /\
   Forall (fun b => 1 <= length b <= BATCH_SIZE)%nat (make_batches rows)) /\
  k = length (make_batches rows) /\
  exists ins skp,
    r = Ok (ins, skp) /\
    load_batch (concat (firstn (k - 1) (make_batches rows))) db0 = Ok (ins, skp, t) /\
    (ins + skp = length (concat (firstn (k - 1) (make_batches rows))))%nat /\
    log = committed_log 1 (k - 1) ++ [Processing k; ConnectionLost k].
Proof.
  intros H Hin. split; [apply make_batches_shape|].
  unfold run_loading in H.
  destruct (load_loop (make_batches rows) 1 (length (make_batches rows)) draw
              (mkConn db0 db0) 0 0 []) as [[r' c] log'] eqn:Hl.
  injection H as -> <- ->.
  destruct (load_loop_connection_lost _ _ _ _ _ _ _ _ _ _ _ k Hl
              (fun j (Hj : In (ConnectionLost j) []) => Hj) Hin)
    as [p [a [a' [Hk [_ [Hn [Hload [Hr Hlog]]]]]]]].
  replace (k - 1)%nat with p by lia.
  split; [exact Hn|]. exists a, a'.
  split; [exact Hr|]. split; [exact Hload|].
  split; [unfold load_batch in Hload; apply load_rows_count in Hload; lia|].
  exact Hlog.
Qed.

(** ** The orchestrator *)

(** C9: [run_pipeline] runs extraction, transformation and loading once
    each, in that order; the first stage that raises names itself in
    [phase_failed], makes [errors = 1] and ends the run, and the stats keep
    the counts of the stages that completed before it; a run where no stage
    raises has [phase_failed = None] and no error. *)
Theorem run_pipeline_stage_order (e : env) :
  (exists err,
     run_extraction (csv_source e) (json_source e) (api_draw e) = Err err /\
     run_pipeline e = (mkStats 0 0 0 0 1 (Some "extraction"), [Extraction])) \/
  (exists ex err,
     run_extraction (csv_source e) (json_source e) (api_draw e) = Ok ex /\
     run_transformation ex = Err err /\
     run_pipeline e = (mkStats (length (sales_data ex)) 0 0 0 1 (Some "transformation"),
                       [Extraction; Transformation])) \/
  (exists ex rows err t log,
     run_extraction (csv_source e) (json_source e) (api_draw e) = Ok ex /\
     run_transformation ex = Ok rows /\
     run_loading rows (load_draw e) (db_initial e) = (Err err, t, log) /\
     run_pipeline e = (mkStats (length (sales_data ex)) (length rows) 0 0 1 (Some "loading"),
                       [Extraction; Transformation; Loading])) \/
  (exists ex rows ins skp t log,
     run_extraction (csv_source e) (json_source e) (api_draw e) = Ok ex /\
     run_transformation ex = Ok rows /\
     run_loading rows (load_draw e) (db_initial e) = (Ok (ins, skp), t, log) /\
     run_pipeline e = (mkStats (length (sales_data ex)) (length rows) ins skp 0 None,
                       [Extraction; Transformation; Loading])).
Proof.
  unfold run_pipeline.
  destruct (run_extraction (csv_source e) (json_source e) (api_draw e)) as [ex|err] eqn:Hx.
  2: { left. exists err. split; [reflexivity | reflexivity]. }
  destruct (run_transformation ex) as [rows|err] eqn:Ht.
  2: { right; left. exists ex, err. repeat split; assumption || reflexivity. }
  destruct (run_loading rows (load_draw e) (db_initial e)) as [[[[ins skp]|err] t] log] eqn:Hl.
  - right; right; right. exists ex, rows, ins, skp, t, log. repeat split; assumption || reflexivity.
  - right; right; left. exists ex, rows, err, t, log. repeat split; assumption || reflexivity.
Qed.

(** ** Extraction *)

Lemma dict_get_none_keys (k : string) (d : dict) :
  dict_get k d = None -> existsb (fun kv => String.eqb k (fst kv)) d = false.
Proof.
  induction d as [|[k' v] d IH]; simpl; [reflexivity|].
  destruct (String.eqb k k'); [discriminate | exact IH].
Qed.

Lemma dict_get_some_keys (k : string) (d : dict) (v : pyval) :
  dict_get k d = Some v -> existsb (fun kv => String.eqb k (fst kv)) d = true.
Proof.
  induction d as [|[k' v'] d IH]; simpl; [discriminate|].
  destruct (String.eqb k k'); [reflexivity | exact IH].
Qed.



(** ** Further properties of the code *)

Lemma parse_date_some (fmts : list string) (row : dict) (out : string) :
  parse_date fmts row = Ok (Some out) ->
  exists s pre fmt post, dict_get "order_date" row = Some (VStr s) /\
    fmts = pre ++ fmt :: post /\ Forall (fun f => strptime_ymd s f = None) pre /\
    strptime_ymd s fmt = Some out.
Proof.
  induction fmts as [|f fmts IH]; simpl; [discriminate|].
  unfold try_vt, strptime_field, bind, getitem.
  destruct (dict_get "order_date" row) as [v|] eqn:Hv; [|discriminate].
  destruct v; try (simpl; intros H; destruct (IH H) as (s' & pre & fmt & post & Hs & _); discriminate).
  destruct (strptime_ymd s f) as [o|] eqn:Ho; simpl.
  - intros H; injection H as ->. exists s, [], f, fmts. repeat split; auto.
  - intros H; destruct (IH H) as (s' & pre & fmt & post & Hs & -> & Hpre & Hf).
    injection Hs as <-. exists s, (f :: pre), fmt, post. repeat split; auto.
Qed.

Lemma parse_date_missing (fmts : list string) (row : dict) :
  dict_get "order_date" row = None -> fmts <> [] -> parse_date fmts row = Err KeyError.
Proof.
  intros Hd Hne; destruct fmts as [|f fmts]; [congruence|].
  simpl; unfold try_vt, strptime_field, bind, getitem; rewrite Hd; reflexivity.
Qed.

Lemma validate_row_result_cases (row : dict) (n : Z) (b : bool) (c : option dict)
    (issues : list string) :
  validate_row row n = Ok (b, c, issues) ->
  (b = true /\ c <> None) \/
  (b = false /\ c = None /\ exists r, issues = [r] /\
     In r ["missing_order_id"; "missing_product_id"; "invalid_quantity_type";
           "invalid_price_type"; "unparseable_date"]).
Proof.
  intros H. unfold_validate H. inv_pairs.
  all: try (injection H as <- <- <-).
  all: try first [left; split; [reflexivity|discriminate]
             | right; split; [reflexivity|split; [reflexivity|eexists; split; [reflexivity|simpl; tauto]]]].
Qed.


(** In a row accepted by validate_row, email is the input's truthy email or the placeholder, and the issue missing_email is recorded exactly when the input email is falsy; quantity is an int >= 1 and unit_price a float not below 0.0. *)
Lemma validate_row_accepted_fields (row : dict) (n : Z) (c : dict) (issues : list string) :
  validate_row row n = Ok (true, Some c, issues) ->
  dict_get "email" c = (if get_truthy "email" row then dict_get "email" row
                        else Some (VStr "unknown@placeholder.com")) /\
  (In "missing_email" issues <-> get_truthy "email" row = false) /\
  (exists q, dict_get "quantity" c = Some (VInt q) /\ 1 <= q) /\
  (exists p, dict_get "unit_price" c = Some (VFloat p) /\ fltb p fzero = false).
Proof.
  assert (Hz : fltb fzero fzero = false) by exact (fltb_zero _ feqb_zero).
  destruct (get_truthy "email" row) eqn:Ee; intros H; unfold_validate H; inv_pairs.
  all: rewrite ?Ee in *; simpl in *; try discriminate.
  all: try (injection H as <- <-).
  all: rewrite !dict_get_set; cbn -[fltb feqb fzero].
  all: repeat split; rewrite ?in_app_iff; simpl; try tauto; try reflexivity; try discriminate.
  all: try (intros; exfalso; repeat match goal with Hx : _ \/ _ |- _ => destruct Hx end;
            first [contradiction | match goal with Hx : _ |- _ => discriminate Hx end]).
  all: eexists; split; [reflexivity|].
  all: first [lia | assumption
             | match goal with Hx : (_ <=? 0) = false |- _ => apply Z.leb_gt in Hx; lia end].
Qed.
(** The order_date of an accepted row is the strptime output of the first format of date_formats that parses the input's order_date string; every earlier format fails on it. *)
Lemma validate_row_order_date (row : dict) (n : Z) (c : dict) (issues : list string) :
  validate_row row n = Ok (true, Some c, issues) ->
  exists s pre fmt post out, dict_get "order_date" row = Some (VStr s) /\
    date_formats = pre ++ fmt :: post /\ Forall (fun f => strptime_ymd s f = None) pre /\
    strptime_ymd s fmt = Some out /\ dict_get "order_date" c = Some (VStr out).
Proof.
  intros H. unfold validate_row, try_vt, bind in H.
  remember (parse_date date_formats row) as pd eqn:Hpd.
  split_matches H; inv_pairs.
  all: symmetry in Hpd; destruct (parse_date_some _ _ _ Hpd) as (s0 & pre & fmt & post & Hs & Hf & Hpre & Ho).
  all: exists s0, pre, fmt, post; eexists; repeat split; try eassumption.
  all: try (injection H as <- <-).
  all: rewrite !dict_get_set; reflexivity.
Qed.

(** A row that reaches the unit_price check with a readable price but has no order_date key makes validate_row raise KeyError: the date loop only catches ValueError and TypeError. *)
Lemma validate_row_missing_date (row : dict) (n q : Z) :
  reaches_price_check row q ->
  (get_truthy "unit_price" row = false \/
   exists w p, dict_get "unit_price" row = Some w /\ py_float w = Ok p) ->
  dict_get "order_date" row = None ->
  validate_row row n = Err KeyError.
Proof.
  intros (Ho & Hp & v & Hv & Hq) Hprice Hd.
  unfold validate_row, try_vt, bind, getitem.
  rewrite Ho, Hp, Hv. cbv beta iota. rewrite Hq. cbv beta iota.
  rewrite (parse_date_missing date_formats row Hd) by discriminate.
  destruct (get_truthy "unit_price" row) eqn:Hu.
  - destruct Hprice as [Hf|(w & p & Hw & Hf)]; [discriminate|].
    rewrite Hw; cbv beta iota; rewrite Hf; cbv beta iota.
    destruct (negb (get_truthy "email" row)), (q <=? 0), (fltb p fzero), (feqb p fzero); reflexivity.
  - cbv beta iota.
    destruct (negb (get_truthy "email" row)), (q <=? 0), (fltb fzero fzero), (feqb fzero fzero); reflexivity.
Qed.
Lemma validate_row_accepted_shape (row : dict) (n : Z) (c : dict) (issues : list string) :
  validate_row row n = Ok (true, Some c, issues) ->
  get_truthy "order_id" row = true /\ get_truthy "product_id" row = true /\
  (forall k, ~ In k ["email"; "quantity"; "unit_price"; "order_date"; "total"] ->
     dict_get k c = dict_get k row) /\
  exists q p fq,
    dict_get "quantity" c = Some (VInt q) /\
    dict_get "unit_price" c = Some (VFloat p) /\
    float_of_int q = Some fq /\
    dict_get "total" c = Some (VFloat (fround2 (fmul fq p))).
Proof.
  intros H. unfold_validate H. inv_pairs.
  all: unfold getitem in *; rewrite !dict_get_set in *; simpl in *; inv_pairs.
  all: unfold py_mul, py_round2 in *; inv_pairs.
  all: apply (f_equal negb) in Heqb, Heqb0; rewrite Bool.negb_involutive in Heqb, Heqb0.
  all: split; [exact Heqb|split; [exact Heqb0|split]].
  all: try (intros k Hk; simpl in Hk;
            repeat rewrite dict_get_set_other by (intro; subst; tauto); reflexivity).
  all: do 3 eexists; repeat split; eassumption.
Qed.

(** On a row accepted by validate_row, detect_anomalies does not raise and returns high_value when total > 500.00, then high_quantity when quantity > 20. *)
Lemma detect_anomalies_validated (row : dict) (n m : Z) (c : dict) (issues : list string) :
  validate_row row n = Ok (true, Some c, issues) ->
  exists q t, dict_get "quantity" c = Some (VInt q) /\ dict_get "total" c = Some (VFloat t) /\
    detect_anomalies c m =
      Ok ((if fltb f500 t then ["high_value"] else []) ++
          (if HIGH_QUANTITY_THRESHOLD <? q then ["high_quantity"] else [])).
Proof.
  intros H. destruct (validate_row_accepted_shape _ _ _ _ H)
    as (Ho & _ & Hkeep & q & p & fq & Hq & Hp & Hfq & Ht).
  assert (Hoc : exists o, dict_get "order_id" c = Some o).
  { rewrite Hkeep by (simpl; intuition discriminate).
    unfold get_truthy in Ho; destruct (dict_get "order_id" row); [eauto|discriminate]. }
  destruct Hoc as [o Hoc].
  exists q, (fround2 (fmul fq p)); split; [exact Hq|split; [exact Ht|]].
  unfold detect_anomalies, get_default, getitem, bind.
  rewrite Ht, Hq, Hoc. cbn [py_gt_float py_cmp_int].
  destruct (fltb f500 _), (HIGH_QUANTITY_THRESHOLD <? q); reflexivity.
Qed.
Lemma validate_all_spec (rows : list dict) (i : Z) (v v' : list dict) (s s' : nat) :
  validate_all rows i v s = Ok (v', s') ->
  exists accepted, v' = v ++ accepted /\
    (length accepted + s' = length rows + s)%nat /\
    Forall (fun c => exists k row issues, nth_error rows k = Some row /\
              validate_row row (i + Z.of_nat k) = Ok (true, Some c, issues)) accepted.
Proof.
  revert i v s. induction rows as [|row rows IH]; intros i v s H; simpl in H.
  - injection H as <- <-. exists []. rewrite app_nil_r. repeat split; constructor.
  - unfold bind in H. destruct (validate_row row i) as [[[b c] iss]|e] eqn:Hr; [|discriminate].
    destruct (validate_row_result_cases _ _ _ _ _ Hr) as [[-> Hc]|(-> & -> & _)].
    + destruct c as [c|]; [|congruence].
      destruct (IH _ _ _ H) as (acc & -> & Hlen & Hall).
      exists (c :: acc). rewrite <- app_assoc. simpl. split; [reflexivity|split; [lia|]].
      constructor.
      * exists 0%nat, row, iss. split; [reflexivity|]. rewrite Z.add_0_r. exact Hr.
      * eapply Forall_impl; [|exact Hall].
        intros c' (k & r & is & Hk & Hv). exists (S k), r, is. split; [exact Hk|].
        rewrite Nat2Z.inj_succ, <- Z.add_1_l, Z.add_assoc. exact Hv.
    + destruct (IH _ _ _ H) as (acc & -> & Hlen & Hall).
      exists acc. split; [reflexivity|split; [simpl; lia|]].
      eapply Forall_impl; [|exact Hall].
      intros c' (k & r & is & Hk & Hv). exists (S k), r, is. split; [exact Hk|].
      rewrite Nat2Z.inj_succ, <- Z.add_1_l, Z.add_assoc. exact Hv.
Qed.
Lemma anomaly_all_spec (rows : list dict) (i : Z) (acc : list dict) (cnt : nat)
    (out : list dict) (cnt' : nat) :
  anomaly_all rows i acc cnt = Ok (out, cnt') ->
  exists als, length als = length rows /\
    out = acc ++ map (fun ra => dict_set "anomaly_flags" (VList (map VStr (snd ra))) (fst ra))
                     (combine rows als) /\
    (forall k row a, nth_error rows k = Some row -> nth_error als k = Some a ->
       detect_anomalies row (i + Z.of_nat k) = Ok a) /\
    cnt' = (cnt + length (filter (fun a => negb (Nat.eqb (length a) 0)) als))%nat.
Proof.
  revert i acc cnt. induction rows as [|row rows IH]; intros i acc cnt H; simpl in H.
  - injection H as <- <-. exists []. rewrite app_nil_r. simpl.
    split; [reflexivity|split; [reflexivity|split; [|lia]]].
    intros k row a Hk; destruct k; discriminate.
  - unfold bind in H. destruct (detect_anomalies row i) as [a|e] eqn:Ha; [|discriminate].
    destruct (IH _ _ _ H) as (als & Hlen & -> & Hdet & ->).
    exists (a :: als). simpl. split; [lia|split; [rewrite <- app_assoc; reflexivity|split]].
    + intros [|k] r a' Hk Hk'; simpl in Hk, Hk'.
      * injection Hk as <-; injection Hk' as <-. rewrite Z.add_0_r. exact Ha.
      * rewrite Nat2Z.inj_succ, <- Z.add_1_l, Z.add_assoc. exact (Hdet k r a' Hk Hk').
    + destruct a; simpl; lia.
Qed.

Lemma enrich_row_order_id (lk : list (pyval * pyval)) (row : dict) (m : list pyval)
    (out : dict) (m' : list pyval) :
  enrich_row lk row m = Ok (out, m') -> dict_get "order_id" out = dict_get "order_id" row.
Proof.
  intros H. unfold enrich_row, bind, getitem, lookup_get, mark_unknown in H.
  split_matches H; inv_pairs; try (injection H as <- <-).
  all: rewrite ?dict_get_set_other in * by discriminate; congruence.
Qed.

Lemma enrich_loop_order_ids (lk : list (pyval * pyval)) (rows enr : list dict)
    (miss : list pyval) (E : list dict) (M : list pyval) :
  enrich_loop lk rows enr miss = Ok (E, M) ->
  map (dict_get "order_id") E = map (dict_get "order_id") enr ++ map (dict_get "order_id") rows.
Proof.
  revert enr miss. induction rows as [|row rows IH]; intros enr miss H; simpl in H.
  - injection H as <- <-. rewrite app_nil_r. reflexivity.
  - unfold bind in H. destruct (enrich_row lk row miss) as [[o m1]|e] eqn:Hr; [|discriminate].
    rewrite (IH _ _ H), map_app, <- app_assoc. simpl.
    rewrite (enrich_row_order_id _ _ _ _ _ Hr). reflexivity.
Qed.

Lemma ForallOrdPairs_map_eq {A B} (f : A -> B) (l l' : list A) :
  map f l = map f l' ->
  ForallOrdPairs (fun a b => f a <> f b) l -> ForallOrdPairs (fun a b => f a <> f b) l'.
Proof.
  revert l'. induction l as [|x l IH]; intros [|x' l'] Hm H; try discriminate.
  - constructor.
  - simpl in Hm. injection Hm as Hx Hm. inversion H as [|? ? Hall Hrest]; subst.
    constructor; [|exact (IH _ Hm Hrest)].
    apply Forall_forall. intros y Hy.
    assert (Hy' : In (f y) (map f l)) by (rewrite Hm; apply in_map, Hy).
    apply in_map_iff in Hy' as (z & Hz & Hzin).
    rewrite <- Hx, <- Hz. exact (proj1 (Forall_forall _ _) Hall z Hzin).
Qed.

(** On input rows with string order ids, the rows run_transformation returns have pairwise distinct order ids, are no more than the input rows, and each carries the order id of an input row. *)
Lemma run_transformation_distinct_ids (ex : results) (out : list dict) :
  run_transformation ex = Ok out ->
  Forall has_str_order_id (sales_data ex) ->
  ForallOrdPairs (fun a b => dict_get "order_id" a <> dict_get "order_id" b) out /\
  (length out <= length (sales_data ex))%nat /\
  Forall (fun r => exists row, In row (sales_data ex) /\
            dict_get "order_id" r = dict_get "order_id" row) out.
Proof.
  intros H Hstr. unfold run_transformation, bind in H.
  destruct (py_len (product_catalog ex)); [|discriminate].
  destruct (validate_all (sales_data ex) 1 [] 0) as [[v sk]|] eqn:Hv; [|discriminate].
  simpl in H.
  destruct (validate_all_spec _ _ _ _ _ _ Hv) as (acc & Hacc & Hlen & Hall).
  simpl in Hacc; subst acc.
  assert (Hprov : Forall (fun r => exists row, In row (sales_data ex) /\
            dict_get "order_id" r = dict_get "order_id" row) v).
  { eapply Forall_impl; [|exact Hall]. intros c (k & row & iss & Hk & Hc).
    destruct (validate_row_accepted_shape _ _ _ _ Hc) as (_ & _ & Hkeep & _).
    exists row. split; [exact (nth_error_In _ _ Hk)|].
    apply Hkeep; simpl; intuition discriminate. }
  assert (Hvs : Forall has_str_order_id v).
  { eapply Forall_impl; [|exact Hprov]. intros c (row & Hin & Hc).
    destruct (proj1 (Forall_forall _ _) Hstr row Hin) as [s Hs].
    exists s. rewrite Hc. exact Hs. }
  unfold check_duplicates, bind in H. rewrite (dedup_from_empty v Hvs) in H. simpl in H.
  destruct (anomaly_all (first_occurrences v) 1 [] 0) as [[an cnt]|] eqn:Ha; [|discriminate].
  destruct (py_iter (product_catalog ex)) as [cat|]; [|discriminate].
  simpl in H. unfold enrich_with_products, enrich_run, bind in H.
  destruct (build_lookup cat []) as [lk|]; [|discriminate].
  destruct (enrich_loop lk an [] []) as [[E M]|] eqn:He; [|discriminate].
  destruct (py_sorted_ok (snd (E, M))); [|discriminate].
  injection H as <-. simpl.
  destruct (anomaly_all_spec _ _ _ _ _ _ Ha) as (als & Hlal & -> & _ & _).
  assert (Hids : map (dict_get "order_id") E = map (dict_get "order_id") (first_occurrences v)).
  { rewrite (enrich_loop_order_ids _ _ _ _ _ _ He). simpl.
    clear -Hlal. generalize dependent als. induction (first_occurrences v) as [|r l IH];
      intros [|a0 als] Hlal; try discriminate; simpl; [reflexivity|].
    rewrite dict_get_set_other by discriminate. f_equal. apply IH. simpl in Hlal; lia. }
  assert (HlenE : length E = length (first_occurrences v)).
  { rewrite <- (length_map (dict_get "order_id") E), Hids, length_map. reflexivity. }
  split; [|split].
  - apply (ForallOrdPairs_map_eq _ (first_occurrences v)); [symmetry; exact Hids|].
    apply first_occurrences_distinct, Hvs.
  - rewrite HlenE. pose proof (first_occurrences_length v). lia.
  - apply Forall_forall. intros r Hr.
    assert (Hin : In (dict_get "order_id" r) (map (dict_get "order_id") (first_occurrences v)))
      by (rewrite <- Hids; apply in_map, Hr).
    apply in_map_iff in Hin as (r' & Hr' & Hin).
    apply first_occurrences_incl in Hin.
    destruct (proj1 (Forall_forall _ _) Hprov r' Hin) as (row & Hrow & Hrr).
    exists row. split; [exact Hrow|congruence].
Qed.
Lemma row_params_key (row : dict) (p : list pyval) :
  row_params row = Ok p -> key_of p = oid row /\ getitem "order_id" row = Ok (key_of p).
Proof.
  intros H. unfold row_params, bind in H. unfold oid.
  destruct (getitem "order_id" row) as [o|] eqn:Ho; [|discriminate].
  split_matches H. injection H as <-. unfold getitem in Ho.
  destruct (dict_get "order_id" row); [|discriminate]. injection Ho as ->. auto.
Qed.

Lemma load_rows_unique_keys (b : list dict) (t t' : table) (i s i' s' : nat) :
  Forall has_str_order_id b ->
  load_rows b t i s = Ok (i', s', t') ->
  (NoDup (map key_of t) -> NoDup (map key_of t')) /\
  (forall k, In k (map key_of t) -> In k (map key_of t')) /\
  (forall row, In row b -> In (oid row) (map key_of t')).
Proof.
  revert t i s. induction b as [|row b IH]; intros t i s Hstr H.
  - injection H as <- <- <-. split; [auto|split; [auto|intros row []]].
  - inversion Hstr as [|? ? [x Hx] Hstr']; subst.
    simpl in H. unfold bind in H.
    destruct (row_params row) as [params|e] eqn:Hp; [|discriminate].
    destruct (sql_bind_all params) as [u|e]; [|discriminate].
    destruct (row_params_key _ _ Hp) as [Hk _]. unfold oid in Hk. rewrite Hx in Hk.
    destruct params as [|key ps]; [discriminate|]. simpl in Hk. subst key.
    assert (Hins : insert_or_ignore (VStr x :: ps) t =
      if existsb (fun r => match r with k :: _ => py_eqb (VStr x) k | [] => false end) t
      then (t, false) else (t ++ [VStr x :: ps], true)) by reflexivity.
    rewrite Hins in H.
    destruct (existsb _ t) eqn:He.
    + destruct (IH _ _ _ Hstr' H) as (Hnd & Hkeep & Hall).
      split; [exact Hnd|split; [exact Hkeep|]].
      intros r [<-|Hr]; [|exact (Hall r Hr)].
      apply Hkeep. unfold oid. rewrite Hx.
      apply existsb_exists in He as (r & Hr & Hm).
      destruct r as [|k rs]; [discriminate|]. apply py_eqb_str in Hm. subst k.
      change (VStr x) with (key_of (VStr x :: rs)). apply in_map, Hr.
    + destruct (IH _ _ _ Hstr' H) as (Hnd & Hkeep & Hall).
      assert (Hnotin : ~ In (VStr x) (map key_of t)).
      { intros Hin. apply in_map_iff in Hin as (r & Hr & Hin).
        destruct r as [|k rs]; [discriminate|]. simpl in Hr; subst k.
        assert (Ht : existsb (fun r => match r with k :: _ => py_eqb (VStr x) k | [] => false end) t = true)
          by (apply existsb_exists; exists (VStr x :: rs); split; [exact Hin|simpl; apply String.eqb_refl]).
        congruence. }
      split; [|split].
      * intros Hn. apply Hnd. rewrite map_app. simpl.
        apply NoDup_app; [exact Hn|constructor; [intros []|constructor]|].
        intros y Hy [<-|[]]. exact (Hnotin Hy).
      * intros y Hy. apply Hkeep. rewrite map_app. apply in_or_app. left; exact Hy.
      * intros r [<-|Hr]; [|exact (Hall r Hr)].
        apply Hkeep. unfold oid. rewrite Hx. rewrite map_app. apply in_or_app. right; left; reflexivity.
Qed.
Lemma load_loop_no_issue (bs : list (list dict)) (k n : nat) (x : table) (ti ts : nat)
    (log : list load_event) (r : res (nat * nat)) (c : conn) (log' : list load_event) :
  load_loop bs k n false (mkConn x x) ti ts log = (r, c, log') ->
  match load_batch (concat bs) x with
  | Ok (a, a', t) =>
      r = Ok ((ti + a)%nat, (ts + a')%nat) /\ committed c = t /\
      log' = log ++ committed_log k (length bs)
  | Err e =>
      r = Err e /\ exists p a a', (p < length bs)%nat /\
        load_batch (concat (firstn p bs)) x = Ok (a, a', committed c) /\
        log' = log ++ committed_log k p ++ [Processing (k + p)]
  end.
Proof.
  revert k x ti ts log. induction bs as [|b bs IH]; intros k x ti ts log H.
  - injection H as <- <- <-. simpl. rewrite !Nat.add_0_r, app_nil_r. auto.
  - simpl in H. unfold simulate_connection_issue in H. rewrite andb_false_r in H.
    simpl concat. unfold load_batch at 1. rewrite load_rows_app.
    destruct (load_batch b x) as [[[a a'] t]|e] eqn:Hb; unfold load_batch in Hb; rewrite Hb.
    + apply IH in H. rewrite load_rows_shift. unfold load_batch in H.
      cbn [working committed] in H.
      destruct (load_rows (concat bs) t 0 0) as [[[b1 b2] t2]|e].
      * destruct H as (-> & Hc & ->). split; [f_equal; f_equal; lia|split; [exact Hc|]].
        cbn [length]. rewrite committed_log_S, <- !app_assoc. reflexivity.
      * destruct H as (-> & p & c1 & c2 & Hp & Hload & Hl). split; [reflexivity|].
        exists (S p), (a + c1)%nat, (a' + c2)%nat. split; [simpl; lia|split].
        -- simpl firstn. simpl concat. unfold load_batch. rewrite load_rows_app, Hb, load_rows_shift.
           unfold load_batch in Hload. rewrite Hload. reflexivity.
        -- rewrite Hl, committed_log_S, <- !app_assoc. replace (k + S p)%nat with (S k + p)%nat by lia.
           reflexivity.
    + injection H as <- <- <-. split; [reflexivity|].
      exists O, O, O. split; [simpl; lia|split; [reflexivity|]].
      rewrite Nat.add_0_r. reflexivity.
Qed.

Lemma run_loading_no_issue_spec (rows : list dict) (db0 : table)
    (r : res (nat * nat)) (t : table) (log : list load_event) :
  run_loading rows false db0 = (r, t, log) ->
  match load_batch rows db0 with
  | Ok (ins, skp, t') =>
      r = Ok (ins, skp) /\ t = t' /\ (ins + skp = length rows)%nat /\
      log = committed_log 1 (length (make_batches rows))
  | Err e =>
      r = Err e /\ exists p ins skp, (p < length (make_batches rows))%nat /\
        load_batch (concat (firstn p (make_batches rows))) db0 = Ok (ins, skp, t) /\
        log = committed_log 1 p ++ [Processing (S p)]
  end.
Proof.
  intros H. unfold run_loading in H.
  destruct (load_loop (make_batches rows) 1 (length (make_batches rows)) false
              (mkConn db0 db0) 0 0 []) as [[r' c] log'] eqn:Hl.
  injection H as -> <- ->.
  apply load_loop_no_issue in Hl.
  destruct (make_batches_shape rows) as [Hcat _]. rewrite Hcat in Hl.
  destruct (load_batch rows db0) as [[[a a'] t']|e] eqn:Hb.
  - destruct Hl as (-> & -> & ->). split; [reflexivity|split; [reflexivity|split; [|reflexivity]]].
    unfold load_batch in Hb. apply load_rows_count in Hb. lia.
  - exact Hl.
Qed.

Lemma load_loop_counts_bound (bs : list (list dict)) (k n : nat) (draw : bool) (x : table)
    (ti ts : nat) (log : list load_event) (a a' : nat) (c : conn) (log' : list load_event) :
  load_loop bs k n draw (mkConn x x) ti ts log = (Ok (a, a'), c, log') ->
  (a + a' <= ti + ts + length (concat bs))%nat.
Proof.
  revert k x ti ts log. induction bs as [|b bs IH]; intros k x ti ts log H; simpl in H.
  - injection H as <- <- _ _. simpl. lia.
  - destruct (simulate_connection_issue k n draw).
    + injection H as <- <- _ _. lia.
    + destruct (load_batch b x) as [[[i s] t]|e] eqn:Hb; [|discriminate].
      apply IH in H. unfold load_batch in Hb. apply load_rows_count in Hb.
      simpl concat. rewrite length_app. lia.
Qed.


Lemma api_attempts_closed (draw : nat -> Z) (k m : nat) :
  api_attempts draw k m =
  if existsb (fun j => Z.eqb (draw j) 200) (seq k m) then api_records else [].
Proof.
  revert k. induction m as [|m IH]; intros k; [reflexivity|].
  simpl. destruct (draw k =? 200); [reflexivity|apply IH].
Qed.

(** extract_from_api returns the two API records when one of the attempts 1..max_retries draws status 200, and no record otherwise. *)
Lemma extract_from_api_result (draw : nat -> Z) (max_retries : nat) :
  extract_from_api draw max_retries =
  if existsb (fun j => Z.eqb (draw j) 200) (seq 1 max_retries) then api_records else [].
Proof. apply api_attempts_closed. Qed.

(** On a JSON object, extract_json returns [] when the key is missing, the value itself for a list, a string or an empty object, and raises KeyError for a non-empty object and TypeError for a number, a boolean or null. *)
Lemma extract_json_dict (d : dict) (key : string) :
  extract_json (JsonDoc (VDict d)) key =
  match dict_get key d with
  | None => Ok (VList [])
  | Some v =>
      match v with
      | VList _ | VStr _ | VDict [] => Ok v
      | VDict _ => Err KeyError
      | _ => Err TypeError
      end
  end.
Proof.
  unfold extract_json, bind, py_in_str.
  destruct (dict_get key d) as [v|] eqn:Hd.
  - rewrite (dict_get_some_keys _ _ _ Hd). simpl. unfold getitem. rewrite Hd.
    destruct v as [| | | |s|l|d']; try reflexivity.
    + destruct s; reflexivity.
    + destruct l; reflexivity.
    + destruct d'; reflexivity.
  - rewrite (dict_get_none_keys _ _ Hd). reflexivity.
Qed.

(** On a top-level JSON array, extract_json raises: TypeError when the array contains the key as a string, AttributeError otherwise. *)
Lemma extract_json_list (l : list pyval) (key : string) :
  extract_json (JsonDoc (VList l)) key =
  Err (if existsb (py_eqb (VStr key)) l then TypeError else AttributeError).
Proof.
  unfold extract_json, bind, py_in_str. destruct (existsb _ l); reflexivity.
Qed.

Lemma set_add_in (x k : pyval) (m : list pyval) : In x (set_add k m) -> In x m \/ x = k.
Proof.
  unfold set_add. destruct (existsb _ _); [auto|].
  intros H. apply in_app_or in H as [H|[H|[]]]; auto.
Qed.

Lemma enrich_loop_missing (lk : list (pyval * pyval)) (rows enr : list dict)
    (miss : list pyval) (E : list dict) (M : list pyval) :
  enrich_loop lk rows enr miss = Ok (E, M) ->
  forall m, In m M -> In m miss \/
    exists row, In row rows /\ dict_get "product_id" row = Some m /\
      (lookup_find m lk = None \/ exists p, lookup_find m lk = Some p /\ truthy p = false).
Proof.
  revert enr miss. induction rows as [|row rows IH]; intros enr miss H m Hm; simpl in H.
  - injection H as <- <-. left; exact Hm.
  - unfold bind in H. destruct (enrich_row lk row miss) as [[o m1]|e] eqn:Hr; [|discriminate].
    destruct (IH _ _ H m Hm) as [Hin|(r & Hr' & Hp & Hl)]; [|right; exists r; split; [right; exact Hr'|auto]].
    unfold enrich_row, bind, getitem, lookup_get in Hr.
    destruct (dict_get "product_id" row) as [pid|] eqn:Hpid; [|discriminate].
    destruct (hashable pid); [|discriminate].
    destruct (lookup_find pid lk) as [p|] eqn:Hf.
    + destruct (truthy p) eqn:Ht.
      * split_matches Hr; inv_pairs; try (injection Hr as Ho Hm1; subst m1); left; exact Hin.
      * unfold mark_unknown in Hr; injection Hr as Ho Hm1; subst m1. apply set_add_in in Hin as [Hin| ->]; [left; exact Hin|].
        right. exists row. split; [left; reflexivity|split; [exact Hpid|right; eauto]].
    + unfold mark_unknown in Hr; injection Hr as Ho Hm1; subst m1. apply set_add_in in Hin as [Hin| ->]; [left; exact Hin|].
      right. exists row. split; [left; reflexivity|split; [exact Hpid|left; exact Hf]].
Qed.

(** Every product id enrichment reports as missing is the product id of an input row, and a string id reported missing has no catalog entry. *)
Lemma enrich_run_missing_sound (rows : list dict) (catalog : list pyval)
    (enriched : list dict) (missing : list pyval) :
  enrich_run rows catalog = Ok (enriched, missing) ->
  forall m, In m missing ->
  exists row, In row rows /\ dict_get "product_id" row = Some m /\
    forall s, m = VStr s -> catalog_entry catalog s = None.
Proof.
  intros H m Hm. unfold enrich_run, bind in H.
  destruct (build_lookup catalog []) as [lk|] eqn:Hlk; [|discriminate].
  destruct (enrich_loop lk rows [] []) as [[E M]|] eqn:Hloop; [|discriminate].
  destruct (py_sorted_ok (snd (E, M))); [|discriminate].
  injection H as <- <-.
  destruct (enrich_loop_missing _ _ _ _ _ _ Hloop m Hm) as [Hin|(row & Hr & Hp & Hl)]; [destruct Hin|].
  exists row. split; [exact Hr|split; [exact Hp|]]. intros s ->.
  rewrite (build_lookup_find catalog [] lk s Hlk) in Hl. simpl in Hl. fold (catalog_entry catalog s) in Hl.
  destruct Hl as [Hl|(p & Hl & Ht)]; [exact Hl|].
  destruct (catalog_fold_has_id catalog s None p Hl) as [Hid|Hid]; [|discriminate].
  rewrite (entry_has_id_truthy p s Hid) in Ht. discriminate.
Qed.
Lemma build_lookup_entries (catalog : list pyval) (acc lk : list (pyval * pyval)) :
  build_lookup catalog acc = Ok lk ->
  Forall (fun p => exists d k, p = VDict d /\ dict_get "product_id" d = Some k /\
                               hashable k = true) catalog.
Proof.
  revert acc. induction catalog as [|p catalog IH]; intros acc H; [constructor|].
  simpl in H. unfold bind in H.
  destruct (subscript p "product_id") as [k|e] eqn:Hk; [|discriminate].
  destruct (hashable k) eqn:Hh; [|discriminate].
  constructor; [|exact (IH _ H)].
  destruct p as [| | | | | l | d]; try discriminate. simpl in Hk. unfold getitem in Hk.
  destruct (dict_get "product_id" d) as [k'|] eqn:Hd; [|discriminate]. injection Hk as ->.
  exists d, k. auto.
Qed.

(** enrich_with_products succeeds only when every catalog entry is a dict with a hashable product_id, whatever the rows. *)
Lemma enrich_with_products_catalog (rows : list dict) (catalog : list pyval) (out : list dict) :
  enrich_with_products rows catalog = Ok out ->
  Forall (fun p => exists d k, p = VDict d /\ dict_get "product_id" d = Some k /\
                               hashable k = true) catalog.
Proof.
  unfold enrich_with_products, enrich_run, bind.
  destruct (build_lookup catalog []) as [lk|] eqn:Hlk; [|discriminate].
  intros _. exact (build_lookup_entries _ _ _ Hlk).
Qed.

Lemma row_params_keys (row : dict) (p : list pyval) :
  row_params row = Ok p ->
  forall k, In k ["order_id"; "customer_name"; "email"; "product_id"; "quantity";
                  "unit_price"; "total"; "order_date"; "payment_method"] ->
  dict_get k row <> None.
Proof.
  intros H k Hk. unfold row_params, bind, getitem in H.
  simpl in Hk. repeat destruct Hk as [<-|Hk]; try contradiction;
    intros Hn; rewrite Hn in H; simpl in H; try discriminate H; split_matches H.
Qed.

(** load_batch succeeds only when every row of the batch has the keys order_id, customer_name, email, product_id, quantity, unit_price, total, order_date and payment_method. *)
Lemma load_batch_required_keys (b : list dict) (t t' : table) (ins skp : nat) :
  load_batch b t = Ok (ins, skp, t') ->
  Forall (fun row => forall k, In k ["order_id"; "customer_name"; "email"; "product_id";
           "quantity"; "unit_price"; "total"; "order_date"; "payment_method"] ->
           dict_get k row <> None) b.
Proof.
  unfold load_batch. generalize 0%nat at 1 as i. generalize 0%nat as s.
  revert t. induction b as [|row b IH]; intros t s i H; [constructor|].
  simpl in H. unfold bind in H.
  destruct (row_params row) as [params|e] eqn:Hp; [|discriminate].
  destruct (sql_bind_all params); [|discriminate].
  destruct (insert_or_ignore params t) as [t1 []];
    (constructor; [exact (row_params_keys _ _ Hp)|exact (IH _ _ _ H)]).
Qed.

Lemma dedup_loop_length (rows : list dict) (seen : list (pyval * nat)) (u u' : list dict)
    (d d' : nat) :
  dedup_loop rows seen u d = Ok (u', d') ->
  (length u' + d' = length u + d + length rows)%nat.
Proof.
  revert seen u d. induction rows as [|row rows IH]; intros seen u d H; simpl in H.
  - injection H as <- <-. simpl. lia.
  - unfold bind in H. destruct (getitem "order_id" row); [|discriminate].
    destruct (py_contains _ _) as [[]|]; [| |discriminate]; apply IH in H;
      rewrite ?length_app in H; simpl in *; lia.
Qed.

Lemma run_transformation_length (ex : results) (out : list dict) :
  run_transformation ex = Ok out -> (length out <= length (sales_data ex))%nat.
Proof.
  intros H. unfold run_transformation, bind in H.
  destruct (py_len (product_catalog ex)); [|discriminate].
  destruct (validate_all (sales_data ex) 1 [] 0) as [[v sk]|] eqn:Hv; [|discriminate].
  destruct (validate_all_spec _ _ _ _ _ _ Hv) as (acc & Hacc & Hlen & _).
  simpl in Hacc; subst acc.
  unfold check_duplicates, bind in H. simpl in H.
  destruct (dedup_loop v [] [] 0) as [[u dc]|] eqn:Hd; [|discriminate].
  apply dedup_loop_length in Hd. simpl in H, Hd.
  destruct (anomaly_all u 1 [] 0) as [[an cnt]|] eqn:Ha; [|discriminate].
  destruct (py_iter (product_catalog ex)) as [cat|]; [|discriminate].
  simpl in H. unfold enrich_with_products, enrich_run, bind in H.
  destruct (build_lookup cat []) as [lk|]; [|discriminate].
  destruct (enrich_loop lk an [] []) as [[E M]|] eqn:He; [|discriminate].
  destruct (py_sorted_ok (snd (E, M))); [|discriminate].
  injection H as <-. simpl.
  destruct (anomaly_all_spec _ _ _ _ _ _ Ha) as (als & Hlal & -> & _ & _).
  apply enrich_loop_order_ids in He. apply (f_equal (@length _)) in He.
  rewrite length_map in He. simpl in He. rewrite length_map, length_map, length_combine in He.
  lia.
Qed.
(** A pipeline run with no failed phase never reports more transformed rows than extracted ones, nor more loaded plus skipped rows than transformed ones; without the simulated connection loss, loaded plus skipped equals transformed. *)
Lemma run_pipeline_counts (e : env) (st : stats) (stages : list stage) :
  run_pipeline e = (st, stages) -> phase_failed st = None ->
  (transformed st <= extracted st)%nat /\
  (loaded st + skipped st <= transformed st)%nat /\
  (load_draw e = false -> loaded st + skipped st = transformed st)%nat.
Proof.
  intros H Hn. unfold run_pipeline in H.
  destruct (run_extraction _ _ _) as [ex|]; [|injection H as <- _; discriminate].
  destruct (run_transformation ex) as [rows|] eqn:Ht; [|injection H as <- _; discriminate].
  destruct (run_loading rows (load_draw e) (db_initial e)) as [[[[i s]|err] t] log] eqn:Hl;
    [|injection H as <- _; discriminate].
  injection H as <- _. simpl. split; [|split].
  - exact (run_transformation_length _ _ Ht).
  - unfold run_loading in Hl.
    destruct (load_loop _ _ _ _ _ _ _ _) as [[r c] log'] eqn:Hll.
    injection Hl as -> _ _.
    apply load_loop_counts_bound in Hll.
    destruct (make_batches_shape rows) as [Hcat _]. rewrite Hcat in Hll. lia.
  - intros Hd. rewrite Hd in Hl. apply run_loading_no_issue_spec in Hl.
    destruct (load_batch rows (db_initial e)) as [[[a a'] t']|err]; [|destruct Hl; discriminate].
    destruct Hl as (Hr & _ & Hc & _). injection Hr as -> ->. exact Hc.
Qed.
(** validate_row has two outcomes: an accepted row comes with a cleaned dict, and a rejected row comes with no dict and exactly one issue, one of the five rejection reasons. *)
Lemma validate_row_result_shape (row : dict) (n : Z) (b : bool) (c : option dict)
    (issues : list string) :
  validate_row row n = Ok (b, c, issues) ->
  (b = true /\ c <> None) \/
  (b = false /\ c = None /\ exists r, issues = [r] /\
     In r ["missing_order_id"; "missing_product_id"; "invalid_quantity_type";
           "invalid_price_type"; "unparseable_date"]).
Proof. apply validate_row_result_cases. Qed.

(** Step 1 of run_transformation: every input row is either kept or counted as skipped, and each kept row is the cleaned output of validate_row on the input row of its position (numbered from 1). *)
Lemma validate_all_accounting (rows : list dict) (v : list dict) (s : nat) :
  validate_all rows 1 [] 0 = Ok (v, s) ->
  (length v + s = length rows)%nat /\
  Forall (fun c => exists k row issues, nth_error rows k = Some row /\
            validate_row row (Z.of_nat (S k)) = Ok (true, Some c, issues)) v.
Proof.
  intros H. destruct (validate_all_spec _ _ _ _ _ _ H) as (acc & -> & Hlen & Hall).
  split; [simpl in *; lia|].
  eapply Forall_impl; [|exact Hall]. intros c (k & row & iss & Hk & Hc).
  exists k, row, iss. split; [exact Hk|]. rewrite Nat2Z.inj_succ, <- Z.add_1_l. exact Hc.
Qed.

(** Step 3 of run_transformation sets anomaly_flags on every row to the alerts detect_anomalies returns for it, changes nothing else, and counts the rows with at least one alert. *)
Lemma anomaly_all_flags (rows : list dict) (out : list dict) (cnt : nat) :
  anomaly_all rows 1 [] 0 = Ok (out, cnt) ->
  exists als, length als = length rows /\
    out = map (fun ra => dict_set "anomaly_flags" (VList (map VStr (snd ra))) (fst ra))
              (combine rows als) /\
    (forall k row a, nth_error rows k = Some row -> nth_error als k = Some a ->
       detect_anomalies row (Z.of_nat (S k)) = Ok a) /\
    cnt = length (filter (fun a => negb (Nat.eqb (length a) 0)) als).
Proof.
  intros H. destruct (anomaly_all_spec _ _ _ _ _ _ H) as (als & Hl & -> & Hd & ->).
  exists als. split; [exact Hl|split; [reflexivity|split; [|reflexivity]]].
  intros k row a Hk Ha. rewrite Nat2Z.inj_succ, <- Z.add_1_l. exact (Hd k row a Hk Ha).
Qed.

(** Without the simulated connection loss, run_loading returns the counts of loading all rows at once and makes that table durable, with every batch processed and committed; when a batch raises, the durable table holds exactly the batches committed before it. *)
Lemma run_loading_without_connection_loss (rows : list dict) (db0 : table)
    (r : res (nat * nat)) (t : table) (log : list load_event) :
  run_loading rows false db0 = (r, t, log) ->
  match load_batch rows db0 with
  | Ok (ins, skp, t') =>
      r = Ok (ins, skp) /\ t = t' /\ (ins + skp = length rows)%nat /\
      log = committed_log 1 (length (make_batches rows))
  | Err e =>
      r = Err e /\ exists p ins skp, (p < length (make_batches rows))%nat /\
        load_batch (concat (firstn p (make_batches rows))) db0 = Ok (ins, skp, t) /\
        log = committed_log 1 p ++ [Processing (S p)]
  end.
Proof. apply run_loading_no_issue_spec. Qed.

(** With string order ids, load_batch keeps the table's keys duplicate-free, keeps every existing key, and leaves every order id of the batch in the table. *)
Lemma load_batch_unique_keys (b : list dict) (t t' : table) (ins skp : nat) :
  Forall has_str_order_id b ->
  load_batch b t = Ok (ins, skp, t') ->
  (NoDup (map key_of t) -> NoDup (map key_of t')) /\
  (forall k, In k (map key_of t) -> In k (map key_of t')) /\
  (forall row, In row b -> In (oid row) (map key_of t')).
Proof. apply load_rows_unique_keys. Qed.

End Properties.

(** * Witnesses and counterexamples *)

Lemma validate_row_preserves_other_fields_witness :
  validate_row (sample_row "O1") 1 = Ok (true, Some accepted_row, ["invalid_quantity"]) /\
  (forall k, dict_get k (sample_row "O1") <> None -> dict_get k accepted_row <> None) /\
  (forall k, ~ In k ["email"; "quantity"; "unit_price"; "order_date"; "total"] ->
     dict_get k accepted_row = dict_get k (sample_row "O1")).
Proof.
  assert (H : validate_row (sample_row "O1") 1 = Ok (true, Some accepted_row, ["invalid_quantity"]))
    by (reflexivity).
  split; [exact H|].
  exact (validate_row_preserves_other_fields (sample_row "O1") 1 accepted_row _ H).
Defined.

Lemma validate_row_total_derived_witness :
  validate_row (sample_row "O1") 1 = Ok (true, Some accepted_row, ["invalid_quantity"]) /\
  exists q p fq,
    dict_get "quantity" accepted_row = Some (VInt q) /\
    dict_get "unit_price" accepted_row = Some (VFloat p) /\
    float_of_int q = Some fq /\
    dict_get "total" accepted_row = Some (VFloat (fround2 (fmul fq p))).
Proof.
  assert (H : validate_row (sample_row "O1") 1 = Ok (true, Some accepted_row, ["invalid_quantity"]))
    by (reflexivity).
  split; [exact H|].
  exact (validate_row_total_derived (sample_row "O1") 1 accepted_row _ H).
Defined.

Lemma validate_row_quantity_witness :
  validate_row bad_quantity_row 1 = Ok (false, None, ["invalid_quantity_type"]) /\
  dict_get "quantity" accepted_row = Some (VInt (if -2 <=? 0 then 1 else -2)) /\
  (-2 <= 0 -> In "invalid_quantity" ["invalid_quantity"]).
Proof.
  split.
  - apply (proj1 (validate_row_quantity bad_quantity_row 1) (VStr "x") ValueError);
      reflexivity.
  - apply (proj2 (validate_row_quantity (sample_row "O1") 1) accepted_row ["invalid_quantity"]
             (VStr "-2") (-2)); reflexivity.
Defined.

Lemma validate_row_unit_price_witness :
  reaches_price_check empty_price_row (-2) /\
  price_not_fatal empty_price_row 1 (-2) fzero "zero_price" /\
  validate_row bad_price_row 1 = Ok (false, None, ["invalid_price_type"]).
Proof.
  assert (H1 : reaches_price_check empty_price_row (-2)).
  { split; [reflexivity|]. split; [reflexivity|].
    exists (VStr "-2"). split; reflexivity. }
  assert (H2 : reaches_price_check bad_price_row (-2)).
  { split; [reflexivity|]. split; [reflexivity|].
    exists (VStr "-2"). split; reflexivity. }
  split; [exact H1|]. split.
  - apply (proj1 (validate_row_unit_price empty_price_row 1 (-2) H1)).
    right. reflexivity.
  - apply (proj1 (proj2 (validate_row_unit_price bad_price_row 1 (-2) H2)) "abc");
      [reflexivity | discriminate | reflexivity].
Defined.

Lemma missing_quantity_aborts_pipeline_witness :
  run_extraction (csv_source no_quantity_env) (json_source no_quantity_env)
    (api_draw no_quantity_env) = Ok (mkResults [no_quantity_row] (VList []) []) /\
  (forall n, validate_row no_quantity_row n = Err KeyError) /\
  phase_failed (fst (run_pipeline no_quantity_env)) = Some "transformation" /\
  errors (fst (run_pipeline no_quantity_env)) = 1%nat /\
  transformed (fst (run_pipeline no_quantity_env)) = 0%nat /\
  snd (run_pipeline no_quantity_env) = [Extraction; Transformation].
Proof.
  assert (H : run_extraction (csv_source no_quantity_env) (json_source no_quantity_env)
                (api_draw no_quantity_env) = Ok (mkResults [no_quantity_row] (VList []) []))
    by (reflexivity).
  split; [exact H|].
  apply (missing_quantity_aborts_pipeline no_quantity_env _ no_quantity_row H);
    [left; reflexivity | reflexivity | reflexivity
    | reflexivity].
Defined.

Lemma check_duplicates_keeps_first_occurrences_witness :
  Forall has_str_order_id dup_rows /\
  first_occurrences dup_rows = [sample_row "A"; sample_row "B"] /\
  dedup_loop dup_rows [] [] 0 =
    Ok (first_occurrences dup_rows, (length dup_rows - length (first_occurrences dup_rows))%nat) /\
  check_duplicates dup_rows = Ok (first_occurrences dup_rows) /\
  dedup_loop (first_occurrences dup_rows) [] [] 0 = Ok (first_occurrences dup_rows, O) /\
  ForallOrdPairs (fun a b => dict_get "order_id" a <> dict_get "order_id" b)
    (first_occurrences dup_rows).
Proof.
  assert (H : Forall has_str_order_id dup_rows)
    by (repeat constructor; eexists; reflexivity).
  split; [exact H|]. split; [reflexivity|].
  exact (check_duplicates_keeps_first_occurrences dup_rows H).
Defined.

Lemma enrich_with_products_join_witness :
  exists enriched missing,
  enrich_run enrich_rows pen_catalog = Ok (enriched, missing) /\
  enrich_with_products enrich_rows pen_catalog = Ok enriched /\
  length enriched = length enrich_rows /\
  (forall i row s, nth_error enrich_rows i = Some row ->
     dict_get "product_id" row = Some (VStr s) ->
     (catalog_entry pen_catalog s = None ->
        nth_error enriched i = Some (dict_set "current_stock" (VInt (-1))
                                      (dict_set "category" (VStr "UNKNOWN")
                                         (dict_set "product_name" (VStr "UNKNOWN") row))) /\
        occurrences (VStr s) missing = 1%nat) /\
     (forall p, catalog_entry pen_catalog s = Some p ->
        exists name category stock,
          subscript p "name" = Ok name /\ subscript p "category" = Ok category /\
          subscript p "stock" = Ok stock /\
          nth_error enriched i = Some (dict_set "current_stock" stock
                                        (dict_set "category" category
                                           (dict_set "product_name" name row))))).
Proof.
  destruct (enrich_run enrich_rows pen_catalog) as [[enriched missing]|e] eqn:H;
    [|discriminate H].
  exists enriched, missing. split; [reflexivity|].
  exact (enrich_with_products_join enrich_rows pen_catalog enriched missing H).
Defined.

Lemma run_loading_batch_atomicity_witness :
  exists r t log,
  run_loading loader_rows true [] = (r, t, log) /\
  In (ConnectionLost 3) log /\
  (concat (make_batches loader_rows) = loader_rows /\
   Forall (fun b => length b = BATCH_SIZE) (removelast (make_batches loader_rows)) /\
   Forall (fun b => 1 <= length b <= BATCH_SIZE)%nat (make_batches loader_rows)) /\
  3%nat = length (make_batches loader_rows) /\
  exists ins skp,
    r = Ok (ins, skp) /\
    load_batch (concat (firstn (3 - 1) (make_batches loader_rows))) [] = Ok (ins, skp, t) /\
    (ins + skp = length (concat (firstn (3 - 1) (make_batches loader_rows))))%nat /\
    log = committed_log 1 (3 - 1) ++ [Processing 3; ConnectionLost 3].
Proof.
  destruct (run_loading loader_rows true []) as [[r t] log] eqn:H.
  assert (Hin : In (ConnectionLost 3) log).
  { assert (Hl : log = [Processing 1; Committed 1; Processing 2; Committed 2;
                        Processing 3; ConnectionLost 3])
      by (change log with (snd (r, t, log)); rewrite <- H; reflexivity).
    rewrite Hl. right; right; right; right; right. left. reflexivity. }
  exists r, t, log. split; [reflexivity|]. split; [exact Hin|].
  exact (run_loading_batch_atomicity loader_rows true [] r t log 3 H Hin).
Defined.



Lemma validate_row_result_shape_witness :
  validate_row bad_quantity_row 1 = Ok (false, None, ["invalid_quantity_type"]) /\
  ((false = true /\ @None dict <> None) \/
   (false = false /\ @None dict = None /\ exists r, ["invalid_quantity_type"] = [r] /\
      In r ["missing_order_id"; "missing_product_id"; "invalid_quantity_type";
            "invalid_price_type"; "unparseable_date"])).
Proof.
  split; [reflexivity|]. apply (validate_row_result_shape bad_quantity_row 1). reflexivity.
Defined.

Lemma validate_all_accounting_witness :
  exists v s, validate_all mixed_rows 1 [] 0 = Ok (v, s) /\ (length v + s = 3)%nat.
Proof.
  do 2 eexists. split; [reflexivity|].
  exact (proj1 (validate_all_accounting mixed_rows _ _ eq_refl)).
Defined.

Lemma validate_row_accepted_fields_witness :
  let c := dict_set "email" (VStr "unknown@placeholder.com") accepted_row in
  validate_row no_email_row 1 = Ok (true, Some c, ["missing_email"; "invalid_quantity"]) /\
  dict_get "email" c = (if get_truthy "email" no_email_row then dict_get "email" no_email_row
                        else Some (VStr "unknown@placeholder.com")) /\
  (In "missing_email" ["missing_email"; "invalid_quantity"] <->
     get_truthy "email" no_email_row = false) /\
  (exists q, dict_get "quantity" c = Some (VInt q) /\ 1 <= q) /\
  (exists p, dict_get "unit_price" c = Some (VFloat p) /\ fltb p fzero = false).
Proof.
  intros c. split; [reflexivity|].
  apply (validate_row_accepted_fields no_email_row 1 c). reflexivity.
Defined.

Lemma validate_row_order_date_witness :
  validate_row (sample_row "O1") 1 = Ok (true, Some accepted_row, ["invalid_quantity"]) /\
  exists s pre fmt post out, dict_get "order_date" (sample_row "O1") = Some (VStr s) /\
    date_formats = pre ++ fmt :: post /\ Forall (fun f => strptime_ymd s f = None) pre /\
    strptime_ymd s fmt = Some out /\ dict_get "order_date" accepted_row = Some (VStr out).
Proof.
  split; [reflexivity|]. apply (validate_row_order_date (sample_row "O1") 1 accepted_row ["invalid_quantity"]). reflexivity.
Defined.

Lemma validate_row_missing_date_witness :
  reaches_price_check no_date_row 2 /\ validate_row no_date_row 1 = Err KeyError.
Proof.
  assert (Hr : reaches_price_check no_date_row 2)
    by (split; [reflexivity|split; [reflexivity|eexists; split; reflexivity]]).
  split; [exact Hr|].
  apply (validate_row_missing_date no_date_row 1 2 Hr); [|reflexivity].
  right. exists (VStr "3"), 3. split; reflexivity.
Defined.

Lemma detect_anomalies_validated_witness :
  validate_row (sample_row "O1") 1 = Ok (true, Some accepted_row, ["invalid_quantity"]) /\
  exists q t, dict_get "quantity" accepted_row = Some (VInt q) /\
    dict_get "total" accepted_row = Some (VFloat t) /\
    detect_anomalies accepted_row 1 =
      Ok ((if fltb f500 t then ["high_value"] else []) ++
          (if HIGH_QUANTITY_THRESHOLD <? q then ["high_quantity"] else [])).
Proof.
  split; [reflexivity|]. apply (detect_anomalies_validated (sample_row "O1") 1 1 accepted_row ["invalid_quantity"]). reflexivity.
Defined.

Lemma anomaly_all_flags_witness :
  exists out cnt, anomaly_all [big_row; accepted_row] 1 [] 0 = Ok (out, cnt) /\
    exists als : list (list string), length als = 2%nat /\
      cnt = length (filter (fun a => negb (Nat.eqb (length a) 0)) als).
Proof.
  do 2 eexists. split; [reflexivity|].
  destruct (anomaly_all_flags [big_row; accepted_row] _ _ eq_refl) as (als & Hl & _ & _ & Hc).
  exists als. split; [exact Hl|exact Hc].
Defined.

Lemma run_transformation_distinct_ids_witness :
  exists out, run_transformation (mkResults dup_rows (VList pen_catalog) []) = Ok out /\
    ForallOrdPairs (fun a b => dict_get "order_id" a <> dict_get "order_id" b) out.
Proof.
  eexists. split; [reflexivity|].
  apply (run_transformation_distinct_ids (mkResults dup_rows (VList pen_catalog) []) _ eq_refl).
  repeat constructor; eexists; reflexivity.
Defined.

Lemma load_batch_unique_keys_witness :
  exists ins skp t', load_batch [clean_row 0; clean_row 0; clean_row 1] [] = Ok (ins, skp, t') /\
    NoDup (map key_of t').
Proof.
  assert (H : exists ins skp t',
    load_batch [clean_row 0; clean_row 0; clean_row 1] [] = Ok (ins, skp, t'))
    by (do 3 eexists; reflexivity).
  destruct H as (ins & skp & t' & H). exists ins, skp, t'. split; [exact H|].
  apply (load_batch_unique_keys [clean_row 0; clean_row 0; clean_row 1] [] t' ins skp);
    [repeat constructor; eexists; reflexivity|exact H|constructor].
Defined.

Lemma run_loading_without_connection_loss_witness :
  exists r t log, run_loading loader_rows false [] = (r, t, log) /\
    exists ins skp t', load_batch loader_rows [] = Ok (ins, skp, t') /\ r = Ok (ins, skp) /\ t = t'.
Proof.
  do 3 eexists. split; [reflexivity|].
  pose proof (run_loading_without_connection_loss loader_rows [] _ _ _ eq_refl) as H.
  destruct (load_batch loader_rows []) as [[[i s] t']|e] eqn:Hb; [|discriminate Hb].
  destruct H as (Hr & Ht & _). exists i, s, t'. auto.
Defined.

Lemma run_pipeline_counts_witness :
  exists st stages, run_pipeline catalog_env = (st, stages) /\ phase_failed st = None /\
    (transformed st <= extracted st)%nat /\ (loaded st + skipped st = transformed st)%nat.
Proof.
  do 2 eexists. split; [reflexivity|]. split; [reflexivity|].
  destruct (run_pipeline_counts catalog_env _ _ eq_refl eq_refl) as (H1 & _ & H3).
  split; [exact H1|exact (H3 eq_refl)].
Defined.

Lemma enrich_run_missing_sound_witness :
  exists E M, enrich_run enrich_rows pen_catalog = Ok (E, M) /\ In (VStr "P9") M /\
    exists row, In row enrich_rows /\ dict_get "product_id" row = Some (VStr "P9") /\
      catalog_entry pen_catalog "P9" = None.
Proof.
  do 2 eexists. split; [reflexivity|]. split; [simpl; auto|].
  destruct (enrich_run_missing_sound enrich_rows pen_catalog _ _ eq_refl (VStr "P9"))
    as (row & Hr & Hp & Hc); [simpl; auto|].
  exists row. split; [exact Hr|split; [exact Hp|exact (Hc "P9" eq_refl)]].
Defined.

Lemma enrich_with_products_catalog_witness :
  exists out, enrich_with_products enrich_rows pen_catalog = Ok out /\
    Forall (fun p => exists d k, p = VDict d /\ dict_get "product_id" d = Some k /\
                                 hashable k = true) pen_catalog.
Proof.
  eexists. split; [reflexivity|].
  exact (enrich_with_products_catalog enrich_rows pen_catalog _ eq_refl).
Defined.

Lemma load_batch_required_keys_witness :
  exists ins skp t', load_batch [clean_row 0] [] = Ok (ins, skp, t') /\
    Forall (fun row => forall k, In k ["order_id"; "customer_name"; "email"; "product_id";
           "quantity"; "unit_price"; "total"; "order_date"; "payment_method"] ->
           dict_get k row <> None) [clean_row 0].
Proof.
  assert (H : exists ins skp t', load_batch [clean_row 0] [] = Ok (ins, skp, t'))
    by (do 3 eexists; reflexivity).
  destruct H as (ins & skp & t' & H). exists ins, skp, t'. split; [exact H|].
  exact (load_batch_required_keys [clean_row 0] [] t' ins skp H).
Defined.
